(** * microscope: leakage-safe cross-validation pipeline for DNAm datasets

    A shallow embedding of [microscope.py]: the [Dataset] container, the
    NaN-imputation helpers, the feature selector, the model definition, the
    cross-validation loop and the training on the entire dataset, followed
    by the properties established for them.

    Conventions.
    - A numpy/pandas float is a value of [float]: [NaN], the two infinities
      or a finite value carried as a rational.  Finite arithmetic is exact
      (no rounding, no overflow); NaN and infinity propagate as in IEEE 754.
    - Python exceptions are the [Raise] results of the [result] monad.
    - scipy's two-sample tests, scikit-learn's [StandardScaler] and
      [LogisticRegressionCV] are external: the code is parameterised over
      them through the classes [Stats] and [Sklearn]. *)

From Stdlib Require Import String List Bool Arith ZArith QArith Lia.
Import ListNotations.
Open Scope string_scope.
Open Scope list_scope.
Close Scope Q_scope.

Set Implicit Arguments.

(** ** Exceptions *)

Inductive exn : Type :=
| UnboundLocalError
| AttributeError
| IndexError
| KeyError
| ValueError.

Inductive result (A : Type) : Type :=
| Ok (a : A)
| Raise (e : exn).

Arguments Ok {A} a.
Arguments Raise {A} e.

Definition bind {A B : Type} (r : result A) (k : A -> result B) : result B :=
  match r with
  | Ok a => k a
  | Raise e => Raise e
  end.

Notation "x <- r ;; k" := (bind r (fun x => k))
  (at level 61, r at next level, right associativity).
Notation "' pat <- r ;; k" := (bind r (fun x => match x with pat => k end))
  (at level 61, pat pattern, r at next level, right associativity).

Fixpoint mapM {A B : Type} (f : A -> result B) (l : list A) : result (list B) :=
  match l with
  | [] => Ok []
  | a :: l' => b <- f a ;; bs <- mapM f l' ;; Ok (b :: bs)
  end.

(** ** Floats *)

(** A float64 value: NaN, an infinity, or a finite number.  Finite numbers
    are exact rationals: rounding and overflow are not modelled, and no
    property below is about the magnitude of a computed value. *)
Inductive float : Type :=
| NaN
| PInf
| NInf
| Fin (q : Q).

Definition isnan (x : float) : bool :=
  match x with NaN => true | _ => false end.

Definition fadd (x y : float) : float :=
  match x, y with
  | NaN, _ | _, NaN => NaN
  | PInf, NInf | NInf, PInf => NaN
  | PInf, _ | _, PInf => PInf
  | NInf, _ | _, NInf => NInf
  | Fin a, Fin b => Fin (Qred (a + b))
  end.

(** [x / n] for a count [n]; [0 / 0] is NaN. *)
Definition fdiv_count (x : float) (n : nat) : float :=
  match n with
  | O => match x with
         | Fin q => if Qeq_bool q 0 then NaN else if Qle_bool 0 q then PInf else NInf
         | _ => x
         end
  | S _ => match x with
           | Fin q => Fin (Qred (q / inject_Z (Z.of_nat n)))
           | _ => x
           end
  end.

(** [x == y] on floats: NaN equals nothing. *)
Definition feqb (x y : float) : bool :=
  match x, y with
  | PInf, PInf | NInf, NInf => true
  | Fin a, Fin b => Qeq_bool a b
  | _, _ => false
  end.

(** [x < y] on floats: false as soon as one side is NaN. *)
Definition fltb (x y : float) : bool :=
  match x, y with
  | NaN, _ | _, NaN => false
  | _, NInf => false
  | NInf, _ => true
  | PInf, _ => false
  | _, PInf => true
  | Fin a, Fin b => negb (Qle_bool b a)
  end.

Definition fleb (x y : float) : bool :=
  match x, y with
  | NaN, _ | _, NaN => false
  | NInf, _ => true
  | _, PInf => true
  | _, NInf => false
  | PInf, _ => false
  | Fin a, Fin b => Qle_bool a b
  end.

Definition fsum (l : list float) : float := fold_left fadd l (Fin 0).

(** ** Arrays *)

Definition row := list float.
Definition matrix := list row.

(** [array.sum()] of a 2-D array. *)
Definition array_sum (a : matrix) : float := fsum (concat a).


Definition has_nan (a : matrix) : bool :=
  existsb (existsb isnan) a.

Fixpoint zip_fill (r values : row) : row :=
  match r, values with
  | x :: r', v :: values' => (if isnan x then v else x) :: zip_fill r' values'
  | _, _ => []
  end.

(** One row of [np.where(np.isnan(array), values, array)]: [values] has shape
    [(k,)] and is broadcast against a row of width [m]. *)
Definition where_isnan_row (values r : row) : result row :=
  if Nat.eqb (length r) (length values) then Ok (zip_fill r values)
  else match values, r with
       | [v], _ => Ok (map (fun x => if isnan x then v else x) r)
       | _, [x] => Ok (map (fun v => if isnan x then v else x) values)
       | _, _ => Raise ValueError
       end.

Definition np_where_isnan (a : matrix) (values : row) : result matrix :=
  mapM (where_isnan_row values) a.

(** [numba_fillna(array, values)]. *)
Definition numba_fillna (array : matrix) (values : row) : result matrix :=
  if isnan (array_sum array) then np_where_isnan array values
  else Ok array.

(** ** pandas objects *)

Record Series : Type := mkSeries {
  s_index : list string;
  s_values : list float
}.

Record DataFrame : Type := mkDataFrame {
  df_index : list string;     (* row labels: sample ids *)
  df_columns : list string;   (* column labels: feature ids *)
  df_values : matrix          (* row-major, one row per sample *)
}.

(** [pd.DataFrame(data=..., index=..., columns=...)]: the shape of the data
    must agree with the two label lists. *)
Definition pd_DataFrame (data : matrix) (idx cols : list string) : result DataFrame :=
  if Nat.eqb (length data) (length idx)
     && forallb (fun r => Nat.eqb (length r) (length cols)) data
  then Ok (mkDataFrame idx cols data)
  else Raise ValueError.

(** Positional selection [l[idx]]; a position past the end raises. *)
Definition take {A : Type} (l : list A) (idx : list nat) : result (list A) :=
  mapM (fun i => match nth_error l i with
                 | Some x => Ok x
                 | None => Raise IndexError
                 end) idx.

(** [df.iloc[idx]]. *)
Definition iloc (df : DataFrame) (idx : list nat) : result DataFrame :=
  ix <- take (df_index df) idx ;;
  vs <- take (df_values df) idx ;;
  Ok (mkDataFrame ix (df_columns df) vs).

(** [s.iloc[idx]]. *)
Definition series_iloc (s : Series) (idx : list nat) : result Series :=
  ix <- take (s_index s) idx ;;
  vs <- take (s_values s) idx ;;
  Ok (mkSeries ix vs).

(** Column [j] of an array. *)
Definition column (a : matrix) (j : nat) : list float :=
  map (fun r => nth j r NaN) a.

Definition pick (r : row) (js : list nat) : row :=
  map (fun j => nth j r NaN) js.

(** The frame made of the columns at positions [js], in that order. *)
Definition take_columns (df : DataFrame) (js : list nat) : DataFrame :=
  mkDataFrame (df_index df)
              (map (fun j => nth j (df_columns df) "") js)
              (map (fun r => pick r js) (df_values df)).

Definition column_has_nan (df : DataFrame) (j : nat) : bool :=
  existsb isnan (column (df_values df) j).

(** Positions of the columns that [dropna(how="any", axis=1)] keeps. *)
Definition complete_columns (df : DataFrame) : list nat :=
  filter (fun j => negb (column_has_nan df j)) (seq 0 (length (df_columns df))).

(** [df.dropna(how="any", axis=1)]. *)
Definition dropna_any (df : DataFrame) : DataFrame :=
  take_columns df (complete_columns df).

(** Positions at which a label occurs among the column labels. *)
Definition positions_of (name : string) (cols : list string) : list nat :=
  filter (fun j => String.eqb (nth j cols "") name) (seq 0 (length cols)).

(** [df.loc[:, names]]: every requested label must exist; a label that
    occurs several times selects all its columns. *)
Definition loc_columns (df : DataFrame) (names : list string) : result DataFrame :=
  js <- mapM (fun nm => match positions_of nm (df_columns df) with
                        | [] => Raise KeyError
                        | ps => Ok ps
                        end) names ;;
  Ok (take_columns df (concat js)).

(** *** Column statistics (NaN skipped, as pandas does by default) *)

Definition dropnan (l : list float) : list float :=
  filter (fun x => negb (isnan x)) l.

Definition nanmean (l : list float) : float :=
  let xs := dropnan l in fdiv_count (fsum xs) (length xs).

Fixpoint insert_sorted (x : float) (l : list float) : list float :=
  match l with
  | [] => [x]
  | y :: l' => if fleb x y then x :: l else y :: insert_sorted x l'
  end.

Definition sort (l : list float) : list float :=
  fold_right insert_sorted [] l.

Definition nanmedian (l : list float) : float :=
  let xs := sort (dropnan l) in
  let n := length xs in
  match n with
  | O => NaN
  | _ => if Nat.even n
         then fdiv_count (fadd (nth (n / 2 - 1) xs NaN) (nth (n / 2) xs NaN)) 2
         else nth (n / 2) xs NaN
  end.

Definition columns_of (df : DataFrame) : list (list float) :=
  map (column (df_values df)) (seq 0 (length (df_columns df))).

(** [df.mean()] and [df.median()]: one value per column. *)
Definition df_mean (df : DataFrame) : Series :=
  mkSeries (df_columns df) (map nanmean (columns_of df)).

Definition df_median (df : DataFrame) : Series :=
  mkSeries (df_columns df) (map nanmedian (columns_of df)).

(** ** Imputation *)

(** [feature_imputation_values(df, nan_policy)].  In the last branch nothing
    is bound to [imp_vals], so the [return] raises. *)
Definition feature_imputation_values (df : DataFrame) (nan_policy : string)
  : result Series :=
  if String.eqb nan_policy "impute_by_mean" then Ok (df_mean df)
  else if String.eqb nan_policy "impute_by_median" then Ok (df_median df)
  else if String.eqb nan_policy "zeros"
       then Ok (mkSeries (df_columns df)
                         (repeat (Fin 0) (length (df_columns df))))
  else Raise UnboundLocalError.

(** ** Feature selection *)

(** scipy's two-sample tests: given the two groups (rows = samples), one
    p-value per column. *)
Class Stats : Type := {
  mannwhitneyu : matrix -> matrix -> result (list float);
  ttest_ind : matrix -> matrix -> result (list float)
}.

(** [np.where(cond)[0]]: the positions at which [cond] holds. *)
Definition np_where (cond : list bool) : list nat :=
  filter (fun i => nth i cond false) (seq 0 (length cond)).

(** [itertools.compress(data, selectors)]: pairs elements with selectors and
    keeps those whose selector is truthy (a non-zero integer). *)
Fixpoint compress {A : Type} (data : list A) (selectors : list nat) : list A :=
  match data, selectors with
  | d :: data', s :: selectors' =>
      if Nat.eqb s 0 then compress data' selectors'
      else d :: compress data' selectors'
  | _, _ => []
  end.

(** The rows of [df] whose label equals [v]: [df.iloc[np.where(y==v)[0], :]]. *)
Definition label_group (df : DataFrame) (y : Series) (v : float) : result DataFrame :=
  iloc df (np_where (map (fun l => feqb l v) (s_values y))).

Section FeatureSelection.
Context {stats : Stats}.

(** [select_features(df, y, by, pval_thresh)]. *)
Definition select_features (df : DataFrame) (y : Series) (by_ : string)
           (pval_thresh : float) : result (list string) :=
  if String.eqb by_ "wilcox" then
    g0 <- label_group df y (Fin 0) ;;
    g1 <- label_group df y (Fin 1) ;;
    p_vals <- mannwhitneyu (df_values g0) (df_values g1) ;;
    Ok (compress (df_columns df)
                 (np_where (map (fun p => fltb p pval_thresh) p_vals)))
  else if String.eqb by_ "ttest" then
    g0 <- label_group df y (Fin 0) ;;
    g1 <- label_group df y (Fin 1) ;;
    p_vals <- ttest_ind (df_values g0) (df_values g1) ;;
    Ok (compress (df_columns df)
                 (np_where (map (fun p => fltb p pval_thresh) p_vals)))
  else Ok (df_columns df).

End FeatureSelection.

(** ** Model definition *)

(** A hyper-parameter value: a literal, or a power of ten as produced by
    [np.logspace]. *)
Inductive hnum : Type :=
| Lit (q : Q)
| Pow10 (e : Q).

(** [np.linspace(start, stop, num)]. *)
Definition np_linspace (start stop : Q) (num : nat) : list Q :=
  match num with
  | O => []
  | S O => [Qred start]
  | S m => map (fun i => Qred (start + inject_Z (Z.of_nat i)
                                       * ((stop - start) / inject_Z (Z.of_nat m))))
               (seq 0 num)
  end.

(** [np.logspace(start, stop, num)]: ten to the points of the linear grid. *)
Definition np_logspace (start stop : Q) (num : nat) : list hnum :=
  map Pow10 (np_linspace start stop num).

(** The [Cs] argument of the classifier: an integer (a number of grid
    points, the grid being the library's) or an explicit list of values. *)
Inductive Cs_arg : Type :=
| Cs_int (n : nat)
| Cs_array (l : list hnum).

(** The keyword arguments a [LogisticRegressionCV] is built with; [None]
    stands for an argument that is not passed. *)
Record LogisticRegressionCV : Type := mkLRCV {
  lr_cv : nat;
  lr_random_state : Z;
  lr_penalty : string;
  lr_solver : option string;
  lr_Cs : option Cs_arg;
  lr_l1_ratios : option (list Q);
  lr_n_jobs : option Z;
  lr_max_iter : Z;
  lr_class_weight : option string
}.

(** [model_definition(penalty, seed, internalCV_folds, n_jobs, Cs, l1_ratios,
    max_iter, class_weight)].  In the last branch nothing is bound to
    [model], so the [return] raises. *)
Definition model_definition (penalty : option string) (seed : Z)
           (internalCV_folds : nat) (n_jobs : Z) (Cs : option Cs_arg)
           (l1_ratios : option (list Q)) (max_iter : Z)
           (class_weight : option string) : result LogisticRegressionCV :=
  let '(l1_Cs, l2_Cs) :=
    match Cs with
    | None => (Cs_array (np_logspace (-4) 6 10), Cs_int 10)
    | Some c => (c, c)
    end in
  let l1_ratios :=
    match l1_ratios with
    | None => [1 # 10; 1 # 2; 9 # 10]%Q
    | Some l => l
    end in
  match penalty with
  | None =>
      Ok (mkLRCV internalCV_folds seed "l2" None
                 (Some (Cs_array [Lit 100000])) None None max_iter class_weight)
  | Some p =>
      if String.eqb p "l1" then
        Ok (mkLRCV internalCV_folds seed "l1" (Some "liblinear")
                   (Some l1_Cs) None (Some n_jobs) max_iter class_weight)
      else if String.eqb p "l2" then
        Ok (mkLRCV internalCV_folds seed "l2" None
                   (Some l2_Cs) None None max_iter class_weight)
      else if String.eqb p "elasticnet" then
        Ok (mkLRCV internalCV_folds seed "elasticnet" (Some "saga")
                   None (Some l1_ratios) None max_iter class_weight)
      else Raise UnboundLocalError
  end.

(** The grid of regularisation strengths the classifier searches, as
    scikit-learn documents [Cs]: an explicit list is used as it is, an
    integer [n] asks for [n] values log-spaced between 1e-4 and 1e4, and the
    default is 10. *)
Definition searched_Cs (m : LogisticRegressionCV) : list hnum :=
  match lr_Cs m with
  | Some (Cs_array l) => l
  | Some (Cs_int n) => np_logspace (-4) 4 n
  | None => np_logspace (-4) 4 10
  end.

(** ** Training *)

(** scikit-learn's scaler and classifier.  [transform], [predict] and
    [predict_proba] read the fitted object and return arrays. *)
Class Sklearn : Type := {
  Scaler : Type;
  Model : Type;
  scaler_fit : matrix -> result Scaler;
  scaler_transform : Scaler -> matrix -> result matrix;
  lr_fit : LogisticRegressionCV -> matrix -> list float -> result Model;
  lr_predict : Model -> matrix -> result (list float);
  lr_predict_proba : Model -> matrix -> result matrix
}.

(** [a[:, j]]. *)
Definition column_at (a : matrix) (j : nat) : result (list float) :=
  mapM (fun r => match nth_error r j with
                 | Some x => Ok x
                 | None => Raise IndexError
                 end) a.

Section Training.
Context {sk : Sklearn}.

(** [scale_train_data(X_train)]. *)
Definition scale_train_data (X_train : matrix) : result (matrix * Scaler) :=
  scaler <- scaler_fit X_train ;;
  X_train_scaled <- scaler_transform scaler X_train ;;
  Ok (X_train_scaled, scaler).

(** [train_test(X_train, X_test, y_train, penalty, seed, internalCV_folds,
    n_jobs)]. *)
Definition train_test (X_train X_test : matrix) (y_train : Series)
           (penalty : option string) (seed : Z) (internalCV_folds : nat)
           (n_jobs : Z)
  : result (Model * Scaler * list float * list float) :=
  '(X_train, scaler) <- scale_train_data X_train ;;
  X_test <- scaler_transform scaler X_test ;;
  model <- model_definition penalty seed internalCV_folds n_jobs None None
                            1000 (Some "balanced") ;;
  model <- lr_fit model X_train (s_values y_train) ;;
  y_pred <- lr_predict model X_test ;;
  proba <- lr_predict_proba model X_test ;;
  y_pred_prob <- column_at proba 1 ;;
  Ok (model, scaler, y_pred, y_pred_prob).

End Training.

(** ** The Dataset object *)

(** The table read from [groups.csv]: sample ids and their [Group] cell
    (an empty cell is [None]). *)
Record GroupTable : Type := mkGroups {
  g_index : list string;
  g_Group : list (option string)
}.

(** The attributes of a [Dataset] that the pipeline reads or writes; an
    attribute that is unset (or still [None]) is [None]. *)
Record Dataset : Type := mkDataset {
  ds_mat : option DataFrame;
  ds_groups : option GroupTable;
  ds_df : option DataFrame;
  ds_y : option Series;
  ds_orig_label_names : option (list (option string))
}.

Definition attr {A : Type} (a : option A) : result A :=
  match a with
  | Some x => Ok x
  | None => Raise AttributeError
  end.

Definition mem (s : string) (l : list string) : bool :=
  existsb (String.eqb s) l.

(** [groups.loc[s, "Group"]] for a sample that has a row in the table; an id
    with several rows cannot be assigned to a single slot. *)
Definition group_of (g : GroupTable) (s : string) : result (option string) :=
  match filter (fun p => String.eqb (fst p) s) (combine (g_index g) (g_Group g)) with
  | [(_, l)] => Ok l
  | [] => Raise KeyError
  | _ => Raise ValueError
  end.

Definition label_eqb (a b : option string) : bool :=
  match a, b with
  | Some x, Some y => String.eqb x y
  | None, None => true
  | _, _ => false
  end.

(** [Series.unique()]: first occurrences, missing values being one value. *)
Fixpoint unique (l : list (option string)) : list (option string) :=
  match l with
  | [] => []
  | x :: l' => x :: filter (fun y => negb (label_eqb x y)) (unique l')
  end.

(** ['name' in orig_label_names]. *)
Definition label_in (name : string) (names : list (option string)) : bool :=
  existsb (label_eqb (Some name)) names.

(** [lambda x: 0 if x=="control" else 1]. *)
Definition binarize (x : option string) : float :=
  if label_eqb x (Some "control") then Fin 0 else Fin 1.

Definition isnull (x : option string) : bool :=
  match x with None => true | Some _ => false end.

(** [label_dist[v]] of [y.value_counts()]: a value that never occurs has no
    entry. *)
Definition value_count (y : Series) (v : float) : result nat :=
  match length (filter (fun x => feqb x v) (s_values y)) with
  | O => Raise KeyError
  | n => Ok n
  end.

(** [Dataset.add_target_lables()]. *)
Definition add_target_lables (self : Dataset) : result Dataset :=
  df <- attr (ds_df self) ;;
  groups <- attr (ds_groups self) ;;
  let samps_with_data := df_index df in
  let samps_with_label := g_index groups in
  let samps_with_both := filter (fun s => mem s samps_with_label) samps_with_data in
  labels <- mapM (group_of groups) samps_with_both ;;
  let assigned := combine samps_with_both labels in
  let orig_labels :=
    map (fun s => match filter (fun p => String.eqb (fst p) s) assigned with
                  | (_, l) :: _ => l
                  | [] => None
                  end) samps_with_data in
  let orig_label_names := unique orig_labels in
  let self := mkDataset (ds_mat self) (ds_groups self) (ds_df self) (ds_y self)
                        (Some orig_label_names) in
  let self :=
    if label_in "case" orig_label_names && label_in "control" orig_label_names
    then
      let y := map binarize orig_labels in
      let y := map (fun p => if isnull (snd p) then NaN else fst p)
                   (combine y orig_labels) in
      mkDataset (ds_mat self) (ds_groups self) (ds_df self)
                (Some (mkSeries samps_with_data y)) (ds_orig_label_names self)
    else self in
  y <- attr (ds_y self) ;;
  _ <- value_count y (Fin 0) ;;
  _ <- value_count y (Fin 1) ;;
  Ok self.

(** ** Cross-validation *)

(** The [CV] argument: the string ["LOO"] or a number of folds. *)
Inductive CV_arg : Type :=
| LOO
| n_splits (k : nat).

Definition split := (list nat * list nat)%type.

(** The split whose test part is [test], over [n] samples. *)
Definition split_of (n : nat) (test : list nat) : split :=
  (filter (fun i => negb (existsb (Nat.eqb i) test)) (seq 0 n), test).

Fixpoint consecutive (start : nat) (sizes : list nat) : list (list nat) :=
  match sizes with
  | [] => []
  | s :: sizes' => seq start s :: consecutive (start + s) sizes'
  end.

(** [LeaveOneOut() if CV=="LOO" else KFold(n_splits=CV)]: a [KFold] needs at
    least two folds. *)
Definition make_cv (CV : CV_arg) : result CV_arg :=
  match CV with
  | LOO => Ok LOO
  | n_splits k => if (k <=? 1)%nat then Raise ValueError else Ok (n_splits k)
  end.

(** [KFold(n_splits=k).split(X)] over [n] samples, without shuffling: [k]
    consecutive test blocks, the first [n mod k] one longer. *)
Definition KFold_split (k n : nat) : result (list split) :=
  if (n <? k)%nat then Raise ValueError
  else Ok (map (split_of n)
               (consecutive 0 (map (fun i => n / k + (if (i <? n mod k)%nat then 1 else 0))
                                   (seq 0 k)))).

(** [LeaveOneOut().split(X)]. *)
Definition LeaveOneOut_split (n : nat) : result (list split) :=
  if (n <=? 1)%nat then Raise ValueError
  else Ok (map (fun i => split_of n [i]) (seq 0 n)).

(** [cv.split(X)] over [n] samples. *)
Definition cv_split (cv : CV_arg) (n : nat) : result (list split) :=
  match cv with
  | LOO => LeaveOneOut_split n
  | n_splits k => KFold_split k n
  end.

(** Removal of the columns with a missing value in the train set, and the
    same columns taken in the test set. *)
Definition fold_dropna (df_train df_test : DataFrame)
  : result (DataFrame * DataFrame) :=
  let df_train := dropna_any df_train in
  df_test <- loc_columns df_test (df_columns df_train) ;;
  Ok (df_train, df_test).

(** Imputation of the train and test sets by the train set's values; the
    third component is [imp_vals] when a policy is given. *)
Definition fold_impute (nan_policy : option string) (df_train df_test : DataFrame)
  : result (DataFrame * DataFrame * option Series) :=
  match nan_policy with
  | None => Ok (df_train, df_test, None)
  | Some policy =>
      imp_vals <- feature_imputation_values df_train policy ;;
      a <- numba_fillna (df_values df_train) (s_values imp_vals) ;;
      df_train' <- pd_DataFrame a (df_index df_train) (df_columns df_train) ;;
      b <- numba_fillna (df_values df_test) (s_values imp_vals) ;;
      df_test' <- pd_DataFrame b (df_index df_test) (df_columns df_test) ;;
      Ok (df_train', df_test', Some imp_vals)
  end.

(** The hyper-parameters recorded with the outputs. *)
Record run_params : Type := mkRunParams {
  rp_penalty : option string;
  rp_CV : CV_arg;
  rp_internalCV_folds : nat;
  rp_feat_selection : option string;
  rp_nan_policy : option string;
  rp_timestamp : string
}.

Section CrossValidation.
Context {stats : Stats} {sk : Sklearn}.

(** What one iteration of the loop appends to the seven lists. *)
Record fold_result : Type := mkFold {
  f_model : Model;
  f_scaler : Scaler;
  f_feats : list string;
  f_X_test : matrix;
  f_y_test : Series;
  f_y_pred : list float;
  f_pred_prob : list float
}.

(** The seven lists of [cv_train_test]. *)
Record cv_lists : Type := mkLists {
  X_tests : list matrix;
  y_tests : list Series;
  models : list Model;
  scalers : list Scaler;
  feats_used : list (list string);
  y_preds : list (list float);
  pred_probs : list (list float)
}.

Definition no_folds : cv_lists := mkLists [] [] [] [] [] [] [].

Definition append_fold (acc : cv_lists) (f : fold_result) : cv_lists :=
  mkLists (X_tests acc ++ [f_X_test f])
          (y_tests acc ++ [f_y_test f])
          (models acc ++ [f_model f])
          (scalers acc ++ [f_scaler f])
          (feats_used acc ++ [f_feats f])
          (y_preds acc ++ [f_y_pred f])
          (pred_probs acc ++ [f_pred_prob f]).

(** The dictionary returned by [cv_train_test]. *)
Record outputs : Type := mkOutputs {
  o_trained_models : list Model;
  o_scalers : list Scaler;
  o_features_used : list (list string);
  o_X_test_data : list matrix;
  o_y_test : list Series;
  o_y_pred : list float;
  o_y_pred_prob : list (list float);
  o_run_params : run_params
}.

(** The body of the loop for one [(train_index, test_index)]. *)
Definition cv_fold (df : DataFrame) (y : Series) (penalty : option string)
           (internalCV_folds : nat) (feat_selection : option string)
           (feat_selection_pval_thresh : float) (nan_policy : option string)
           (s : split) : result fold_result :=
  let '(train_index, test_index) := s in
  df_train <- iloc df train_index ;;
  df_test <- iloc df test_index ;;
  y_train <- series_iloc y train_index ;;
  y_test <- series_iloc y test_index ;;
  '(df_train, df_test) <- fold_dropna df_train df_test ;;
  '(df_train, df_test, _) <- fold_impute nan_policy df_train df_test ;;
  feats_to_keep <-
    match feat_selection with
    | Some by_ => select_features df_train y_train by_ feat_selection_pval_thresh
    | None => Ok (df_columns df_train)
    end ;;
  X_train <- loc_columns df_train feats_to_keep ;;
  X_test <- loc_columns df_test feats_to_keep ;;
  '(model, scaler, y_pred, y_pred_prob) <-
    train_test (df_values X_train) (df_values X_test) y_train penalty 42
               internalCV_folds (-1) ;;
  Ok (mkFold model scaler feats_to_keep (df_values X_test) y_test
             y_pred y_pred_prob).

(** The loop over the splits, threading the seven lists. *)
Fixpoint cv_loop (body : split -> result fold_result) (acc : cv_lists)
         (splits : list split) : result cv_lists :=
  match splits with
  | [] => Ok acc
  | s :: splits' =>
      f <- body s ;;
      cv_loop body (append_fold acc f) splits'
  end.

(** The part of [cv_train_test] after the splitter is built: the loop and
    the assembly of the outputs.  [timestamp] is the clock reading. *)
Definition cv_run (df : DataFrame) (y : Series) (splits : list split)
           (CV : CV_arg) (penalty : option string) (internalCV_folds : nat)
           (feat_selection : option string)
           (feat_selection_pval_thresh : float) (nan_policy : option string)
           (timestamp : string) : result outputs :=
  acc <- cv_loop (cv_fold df y penalty internalCV_folds feat_selection
                          feat_selection_pval_thresh nan_policy)
                 no_folds splits ;;
  let y_pred := concat (y_preds acc) in
  Ok (mkOutputs (models acc) (scalers acc) (feats_used acc) (X_tests acc)
                (y_tests acc) y_pred (pred_probs acc)
                (mkRunParams penalty CV internalCV_folds feat_selection
                             nan_policy timestamp)).

(** [cv_train_test(Dataset, CV, penalty, internalCV_folds, feat_selection,
    feat_selection_pval_thresh, nan_policy)]. *)
Definition cv_train_test (D : Dataset) (CV : CV_arg) (penalty : option string)
           (internalCV_folds : nat) (feat_selection : option string)
           (feat_selection_pval_thresh : float) (nan_policy : option string)
           (timestamp : string) : result outputs :=
  cv <- make_cv CV ;;
  df <- attr (ds_df D) ;;
  splits <- cv_split cv (length (df_values df)) ;;
  y <- attr (ds_y D) ;;
  cv_run df y splits CV penalty internalCV_folds feat_selection
         feat_selection_pval_thresh nan_policy timestamp.

End CrossValidation.

(** ** Training on the entire dataset *)

Definition column_all_nan (df : DataFrame) (j : nat) : bool :=
  forallb isnan (column (df_values df) j).

(** Positions of the columns that [dropna(how="all", axis=1)] keeps: those
    with an entry that is not missing. *)
Definition observed_columns (df : DataFrame) : list nat :=
  filter (fun j => negb (column_all_nan df j)) (seq 0 (length (df_columns df))).

(** [df.dropna(how="all", axis=1)]. *)
Definition dropna_all (df : DataFrame) : DataFrame :=
  take_columns df (observed_columns df).

(** The imputation step of [train_on_entire_dataset]: the frame after it and
    [imp_vals]. *)
Definition entire_impute (df : DataFrame) (nan_policy : option string)
  : result (DataFrame * option Series) :=
  match nan_policy with
  | Some policy =>
      imp_vals <- feature_imputation_values df policy ;;
      a <- numba_fillna (df_values df) (s_values imp_vals) ;;
      df' <- pd_DataFrame a (df_index df) (df_columns df) ;;
      Ok (df', Some imp_vals)
  | None => Ok (df, None)
  end.

(** The hyper-parameters recorded by [train_on_entire_dataset]. *)
Record entire_run_params : Type := mkEntireRunParams {
  erp_penalty : option string;
  erp_internalCV_folds : nat;
  erp_feat_selection : option string;
  erp_nan_policy : option string;
  erp_timestamp : string
}.

Section EntireDataset.
Context {stats : Stats} {sk : Sklearn}.

(** [train_model(X, y, penalty, seed, internalCV_folds, n_jobs)]. *)
Definition train_model (X : matrix) (y : Series) (penalty : option string)
           (seed : Z) (internalCV_folds : nat) (n_jobs : Z)
  : result (Model * Scaler) :=
  '(X, scaler) <- scale_train_data X ;;
  model <- model_definition penalty seed internalCV_folds n_jobs None None
                            1000 (Some "balanced") ;;
  model <- lr_fit model X (s_values y) ;;
  Ok (model, scaler).

(** The dictionary returned by [train_on_entire_dataset]. *)
Record entire_outputs : Type := mkEntireOutputs {
  e_trained_model : Model;
  e_features_used : list string;
  e_imputation_vals : option Series;
  e_scaler : Scaler;
  e_run_params : entire_run_params
}.

(** [train_on_entire_dataset(Dataset, penalty, internalCV_folds,
    feat_selection, feat_selection_pval_thresh, nan_policy)], called with
    [out_f=None]: nothing is written.  [timestamp] is the clock reading. *)
Definition train_on_entire_dataset (D : Dataset) (penalty : option string)
           (internalCV_folds : nat) (feat_selection : option string)
           (feat_selection_pval_thresh : float) (nan_policy : option string)
           (timestamp : string) : result entire_outputs :=
  df <- attr (ds_df D) ;;
  let df := dropna_all df in
  y <- attr (ds_y D) ;;
  '(df, imp_vals) <- entire_impute df nan_policy ;;
  feats_used <-
    match feat_selection with
    | Some by_ => select_features df y by_ feat_selection_pval_thresh
    | None => Ok (df_columns df)
    end ;;
  X <- loc_columns df feats_used ;;
  '(model, scaler) <- train_model (df_values X) y penalty 42 internalCV_folds (-1) ;;
  Ok (mkEntireOutputs model feats_used imp_vals scaler
                      (mkEntireRunParams penalty internalCV_folds feat_selection
                                         nan_policy timestamp)).

End EntireDataset.

(** * Vocabularies *)

(** The imputation policies [feature_imputation_values] implements. *)
Definition recognized_nan_policy (policy : string) : Prop :=
  In policy ["impute_by_mean"; "impute_by_median"; "zeros"].

(** The penalties [model_definition] implements; [None] asks for no
    regularisation. *)
Definition recognized_penalty (penalty : option string) : Prop :=
  In penalty [None; Some "l1"; Some "l2"; Some "elasticnet"].

(** The methods [select_features] implements. *)
Definition recognized_feat_selection (by_ : string) : Prop :=
  In by_ ["wilcox"; "ttest"].

(** The columns whose p-value is strictly below the threshold. *)
Definition significant_columns (cols : list string) (p_vals : list float)
           (pval_thresh : float) : list string :=
  map fst (filter (fun cp => fltb (snd cp) pval_thresh) (combine cols p_vals)).

(** Two frames that agree on the labelled samples. *)
Definition agree_on_labelled (y : Series) (df df' : DataFrame) : Prop :=
  df_columns df = df_columns df' /\
  forall i l, nth_error (s_values y) i = Some l -> isnan l = false ->
              nth_error (df_values df) i = nth_error (df_values df') i /\
              nth_error (df_index df) i = nth_error (df_index df') i.

(** The target the code gives to a group label: 0 for control, missing for
    a missing label, 1 for anything else. *)
Definition target_of (l : option string) : float :=
  match l with
  | None => NaN
  | Some s => if String.eqb s "control" then Fin 0 else Fin 1
  end.

(** The group label of a sample: missing when the sample has no row in the
    group table. *)
Definition lookup_label (g : GroupTable) (s : string) : option string :=
  match group_of g s with
  | Ok l => l
  | Raise _ => None
  end.

(** A float that is not an infinity. *)
Definition not_inf (x : float) : bool :=
  match x with
  | PInf | NInf => false
  | _ => true
  end.

(** A finite float. *)
Definition is_finite (x : float) : bool :=
  match x with
  | Fin _ => true
  | _ => false
  end.

(** A binary target: 0, 1 or missing. *)
Definition is_target (x : float) : Prop :=
  x = Fin 0 \/ x = Fin 1 \/ x = NaN.

(** The scaler and the classifier answer with one row, one class and one
    row of probabilities per row they are given. *)
Definition one_per_row (sk : Sklearn) : Prop :=
  (forall s X X', scaler_transform s X = Ok X' -> length X' = length X) /\
  (forall m X y_pred, lr_predict m X = Ok y_pred -> length y_pred = length X) /\
  (forall m X proba, lr_predict_proba m X = Ok proba -> length proba = length X).

(** A classifier that refuses to be fitted on labels with a missing one, as
    scikit-learn's does. *)
Definition rejects_missing_labels (sk : Sklearn) : Prop :=
  forall m X y, existsb isnan y = true -> lr_fit m X y = Raise ValueError.

(** * Sample data *)

(** A frame of three samples and three features: feature [cg2] is missing
    in a train row, feature [cg3] only in the test row. *)
Definition example_df : DataFrame :=
  mkDataFrame ["s1"; "s2"; "s3"] ["cg1"; "cg2"; "cg3"]
              [[Fin (1 # 10); NaN; Fin (3 # 10)];
               [Fin (2 # 10); Fin (5 # 10); NaN];
               [Fin (4 # 10); Fin (6 # 10); Fin (9 # 10)]].


(** Their common train partition: rows 0 and 2. *)
Definition example_train : DataFrame :=
  mkDataFrame ["s1"; "s3"] ["cg1"; "cg2"; "cg3"]
              [[Fin (1 # 10); NaN; Fin (3 # 10)];
               [Fin (4 # 10); Fin (6 # 10); Fin (9 # 10)]].

(** A frame of four samples and three features without missing entry,
    and the targets of its samples. *)
Definition example_complete : DataFrame :=
  mkDataFrame ["s1"; "s2"; "s3"; "s4"] ["cg1"; "cg2"; "cg3"]
              [[Fin (5 # 10); Fin (2 # 10); Fin (1 # 10)];
               [Fin (4 # 10); Fin (6 # 10); Fin (2 # 10)];
               [Fin (6 # 10); Fin (3 # 10); Fin (8 # 10)];
               [Fin (5 # 10); Fin (5 # 10); Fin (9 # 10)]].

Definition example_y : Series :=
  mkSeries ["s1"; "s2"; "s3"; "s4"] [Fin 0; Fin 0; Fin 1; Fin 1].

(** Targets with a missing one. *)
Definition example_y_missing : Series :=
  mkSeries ["s1"; "s2"; "s3"; "s4"] [Fin 0; NaN; Fin 1; Fin 1].

(** A statistical test that answers with given p-values. *)
Definition fixed_stats (p_vals : list float) : Stats :=
  {| mannwhitneyu := fun _ _ => Ok p_vals;
     ttest_ind := fun _ _ => Ok p_vals |}.

(** A scaler that leaves the data as they are and a classifier that, like
    scikit-learn's, refuses labels with a missing one, records what it is
    fitted on, predicts class 1 and gives it probability 3/4. *)
Definition recording_sklearn : Sklearn :=
  {| Scaler := unit;
     Model := LogisticRegressionCV * matrix * list float;
     scaler_fit := fun _ => Ok tt;
     scaler_transform := fun _ X => Ok X;
     lr_fit := fun m X y =>
                 if existsb isnan y then Raise ValueError else Ok (m, X, y);
     lr_predict := fun _ X => Ok (map (fun _ => Fin 1) X);
     lr_predict_proba := fun _ X => Ok (map (fun _ => [Fin (1 # 4); Fin (3 # 4)]) X) |}.

(** A dataset whose group table has a third category and lacks a sample. *)
Definition example_dataset : Dataset :=
  mkDataset None
            (Some (mkGroups ["s1"; "s2"; "s3"]
                            [Some "case"; Some "control"; Some "other"]))
            (Some example_complete) None None.

(** [example_complete] with other values for sample [s2], whose target is
    missing in [example_y_missing]. *)
Definition example_complete' : DataFrame :=
  mkDataFrame ["s1"; "s2"; "s3"; "s4"] ["cg1"; "cg2"; "cg3"]
              [[Fin (5 # 10); Fin (2 # 10); Fin (1 # 10)];
               [Fin (9 # 10); Fin (9 # 10); Fin (9 # 10)];
               [Fin (6 # 10); Fin (3 # 10); Fin (8 # 10)];
               [Fin (5 # 10); Fin (5 # 10); Fin (9 # 10)]].

(** A dataset after [organize_data]. *)
Definition example_organized : Dataset :=
  mkDataset None None (Some example_complete) (Some example_y) None.

(** [example_complete] with other values for sample [s4]. *)
Definition example_complete_s4 : DataFrame :=
  mkDataFrame ["s1"; "s2"; "s3"; "s4"] ["cg1"; "cg2"; "cg3"]
              [[Fin (5 # 10); Fin (2 # 10); Fin (1 # 10)];
               [Fin (4 # 10); Fin (6 # 10); Fin (2 # 10)];
               [Fin (6 # 10); Fin (3 # 10); Fin (8 # 10)];
               [NaN; Fin (1 # 10); PInf]].

(** Targets that differ from [example_y] for sample [s4] only. *)
Definition example_y_s4 : Series :=
  mkSeries ["s1"; "s2"; "s3"; "s4"] [Fin 0; Fin 0; Fin 1; NaN].

(** Targets for the three samples of [example_df]. *)
Definition example_y3 : Series :=
  mkSeries ["s1"; "s2"; "s3"] [Fin 0; Fin 1; Fin 1].

(** [example_dataset] after its targets are assigned. *)
Definition example_dataset_labelled : Dataset :=
  mkDataset None
            (Some (mkGroups ["s1"; "s2"; "s3"]
                            [Some "case"; Some "control"; Some "other"]))
            (Some example_complete)
            (Some (mkSeries ["s1"; "s2"; "s3"; "s4"] [Fin 1; Fin 0; Fin 1; NaN]))
            (Some [Some "case"; Some "control"; Some "other"; None]).

(** A dataset whose matrix has a feature missing everywhere ([cg2]) and a
    feature missing for one sample ([cg3]). *)
Definition example_gaps : Dataset :=
  mkDataset None None
            (Some (mkDataFrame ["s1"; "s2"; "s3"] ["cg1"; "cg2"; "cg3"]
                               [[Fin (1 # 10); NaN; Fin (3 # 10)];
                                [Fin (2 # 10); NaN; NaN];
                                [Fin (4 # 10); NaN; Fin (9 # 10)]]))
            (Some example_y3) None.


(** * Properties *)

Unset Implicit Arguments.

(** ** The result monad and positional selection *)

Lemma bind_Ok_inv {A B : Type} (r : result A) (k : A -> result B) (b : B) :
  bind r k = Ok b -> exists a, r = Ok a /\ k a = Ok b.
Proof.
  destruct r as [a | e]; simpl; intros H; [eauto | discriminate].
Qed.

Lemma mapM_total {A B : Type} (f : A -> result B) (g : A -> B) (l : list A) :
  Forall (fun a => f a = Ok (g a)) l -> mapM f l = Ok (map g l).
Proof.
  induction 1 as [| a l Ha _ IH]; simpl.
  - reflexivity.
  - rewrite Ha; simpl. rewrite IH; reflexivity.
Qed.

Lemma mapM_Ok_length {A B : Type} (f : A -> result B) (l : list A) (out : list B) :
  mapM f l = Ok out -> length out = length l.
Proof.
  revert out; induction l as [| a l IH]; simpl; intros out H.
  - injection H as <-; reflexivity.
  - destruct (f a) as [b | e]; simpl in H; [| discriminate].
    destruct (mapM f l) as [bs | e]; simpl in H; [| discriminate].
    injection H as <-; simpl; f_equal; apply IH; reflexivity.
Qed.

Lemma mapM_Ok_Forall2 {A B : Type} (f : A -> result B) (l : list A) (out : list B) :
  mapM f l = Ok out -> Forall2 (fun a b => f a = Ok b) l out.
Proof.
  revert out; induction l as [| a l IH]; simpl; intros out H.
  - injection H as <-; constructor.
  - destruct (f a) as [b | e] eqn:Ha; simpl in H; [| discriminate].
    destruct (mapM f l) as [bs | e]; simpl in H; [| discriminate].
    injection H as <-; constructor; auto.
Qed.

Lemma take_total {A : Type} (d : A) (l : list A) (idx : list nat) :
  Forall (fun i => i < length l) idx ->
  take l idx = Ok (map (fun i => nth i l d) idx).
Proof.
  intros H; unfold take; apply mapM_total.
  eapply Forall_impl; [| exact H]; simpl; intros i Hi.
  rewrite (nth_error_nth' l d Hi); reflexivity.
Qed.

(** ** NaN in sums *)

Lemma fadd_NaN_r (x : float) : fadd x NaN = NaN.
Proof. destruct x; reflexivity. Qed.

Lemma fold_fadd_NaN (l : list float) : fold_left fadd l NaN = NaN.
Proof. induction l as [| x l IH]; simpl; auto. Qed.

Lemma fold_fadd_has_NaN (l : list float) (acc : float) :
  existsb isnan l = true -> fold_left fadd l acc = NaN.
Proof.
  revert acc; induction l as [| x l IH]; simpl; intros acc H; [discriminate |].
  destruct x; simpl in H; auto.
  rewrite fadd_NaN_r; apply fold_fadd_NaN.
Qed.

Lemma existsb_concat {A : Type} (p : A -> bool) (ll : list (list A)) :
  existsb p (concat ll) = existsb (existsb p) ll.
Proof.
  induction ll as [| l ll IH]; simpl; [reflexivity |].
  rewrite existsb_app, IH; reflexivity.
Qed.

(** A sum that is not NaN has no NaN among its terms: the test that guards
    the replacement never skips an array with a missing entry. *)
Lemma array_sum_not_nan (a : matrix) :
  isnan (array_sum a) = false -> has_nan a = false.
Proof.
  unfold array_sum, fsum, has_nan; intros H.
  destruct (existsb (existsb isnan) a) eqn:E; [| reflexivity].
  rewrite <- existsb_concat in E.
  rewrite (fold_fadd_has_NaN _ _ E) in H; discriminate.
Qed.

(** ** Filling a row *)

Lemma zip_fill_length (r values : row) :
  length r = length values -> length (zip_fill r values) = length r.
Proof.
  revert values; induction r as [| x r IH]; intros [| v values]; simpl;
    intros H; try discriminate; auto.
Qed.


Lemma zip_fill_complete (r values : row) :
  length r = length values -> existsb isnan r = false -> zip_fill r values = r.
Proof.
  revert values; induction r as [| y r IH]; intros [| v values]; simpl;
    intros Hl Hn; try discriminate; auto.
  apply orb_false_iff in Hn as [Hy Hr].
  rewrite Hy; f_equal; apply IH; auto.
Qed.

Lemma where_isnan_row_aligned (values r : row) :
  length r = length values -> where_isnan_row values r = Ok (zip_fill r values).
Proof.
  intros H; unfold where_isnan_row.
  rewrite (proj2 (Nat.eqb_eq _ _) H); reflexivity.
Qed.

Lemma np_where_isnan_aligned (a : matrix) (values : row) :
  Forall (fun r => length r = length values) a ->
  np_where_isnan a values = Ok (map (fun r => zip_fill r values) a).
Proof.
  intros H; unfold np_where_isnan; apply mapM_total.
  eapply Forall_impl; [| exact H]; simpl; intros r Hr.
  apply where_isnan_row_aligned; exact Hr.
Qed.

Lemma map_zip_fill_complete (a : matrix) (values : row) :
  Forall (fun r => length r = length values) a ->
  has_nan a = false ->
  map (fun r => zip_fill r values) a = a.
Proof.
  unfold has_nan; induction 1 as [| r a Hr _ IH]; simpl; intros Hn; [reflexivity |].
  apply orb_false_iff in Hn as [H1 H2].
  rewrite zip_fill_complete by assumption.
  f_equal; apply IH; assumption.
Qed.

(** With one fill value per column, [numba_fillna] returns the array with
    its NaN entries, and only those, replaced. *)
Lemma numba_fillna_aligned (a : matrix) (values : row) :
  Forall (fun r => length r = length values) a ->
  numba_fillna a values = Ok (map (fun r => zip_fill r values) a).
Proof.
  intros H; unfold numba_fillna.
  destruct (isnan (array_sum a)) eqn:E.
  - apply np_where_isnan_aligned; exact H.
  - rewrite map_zip_fill_complete; auto using array_sum_not_nan.
Qed.



(** ** Column selection *)

Lemma filter_eqb_seq (j s n : nat) :
  filter (fun i => Nat.eqb i j) (seq s n)
  = if Nat.leb s j && Nat.ltb j (s + n) then [j] else [].
Proof.
  revert s; induction n as [| n IH]; intros s; simpl.
  - destruct (Nat.leb_spec s j), (Nat.ltb_spec j (s + 0)); simpl; auto; lia.
  - rewrite IH.
    destruct (Nat.eqb_spec s j) as [-> | Hne].
    + destruct (Nat.leb_spec (S j) j); [lia |]; simpl.
      destruct (Nat.leb_spec j j), (Nat.ltb_spec j (j + S n)); simpl; auto; lia.
    + destruct (Nat.leb_spec (S s) j), (Nat.ltb_spec j (S s + n)),
        (Nat.leb_spec s j), (Nat.ltb_spec j (s + S n)); simpl; auto; lia.
Qed.

Lemma positions_of_nth (cols : list string) (j : nat) :
  NoDup cols -> j < length cols -> positions_of (nth j cols "") cols = [j].
Proof.
  intros Hnd Hj; unfold positions_of.
  rewrite (filter_ext_in _ (fun i => Nat.eqb i j)).
  - rewrite filter_eqb_seq.
    destruct (Nat.leb_spec 0 j), (Nat.ltb_spec j (0 + length cols)); simpl; auto; lia.
  - intros i Hi; apply in_seq in Hi.
    destruct (Nat.eqb_spec i j) as [-> | Hne].
    + apply String.eqb_refl.
    + apply String.eqb_neq; intros E; apply Hne.
      apply (proj1 (NoDup_nth cols "") Hnd); auto; lia.
Qed.

Lemma concat_singletons {A : Type} (l : list A) :
  concat (map (fun a => [a]) l) = l.
Proof. induction l as [| a l IH]; simpl; congruence. Qed.

(** Selecting by label the columns found at positions [js] is selecting by
    position, when labels are unique. *)
Lemma loc_columns_by_position (df : DataFrame) (js : list nat) :
  NoDup (df_columns df) ->
  Forall (fun j => j < length (df_columns df)) js ->
  loc_columns df (map (fun j => nth j (df_columns df) "") js)
  = Ok (take_columns df js).
Proof.
  intros Hnd Hjs; unfold loc_columns.
  rewrite (mapM_total _ (fun nm => positions_of nm (df_columns df))).
  - simpl. rewrite map_map.
    rewrite (map_ext_in _ (fun j => [j])).
    + rewrite concat_singletons; reflexivity.
    + intros j Hj; rewrite Forall_forall in Hjs.
      apply positions_of_nth; auto.
  - apply Forall_map.
    eapply Forall_impl; [| exact Hjs]; simpl; intros j Hj.
    rewrite positions_of_nth by assumption; reflexivity.
Qed.


Lemma complete_columns_iff (df : DataFrame) (j : nat) :
  In j (complete_columns df)
  <-> j < length (df_columns df) /\ column_has_nan df j = false.
Proof.
  unfold complete_columns; rewrite filter_In, in_seq, negb_true_iff.
  intuition lia.
Qed.

(** After [dropna(how="any", axis=1)] no entry is missing. *)
Lemma dropna_any_complete (df : DataFrame) :
  has_nan (df_values (dropna_any df)) = false.
Proof.
  unfold has_nan, dropna_any, take_columns; simpl.
  destruct (existsb _ _) eqn:E; [| reflexivity]; exfalso.
  apply existsb_exists in E as (r' & Hr' & E).
  apply in_map_iff in Hr' as (r & <- & Hr).
  apply existsb_exists in E as (x & Hx & Hnan).
  unfold pick in Hx; apply in_map_iff in Hx as (j & <- & Hj).
  apply complete_columns_iff in Hj as [_ Hj].
  unfold column_has_nan, column in Hj.
  assert (H : existsb isnan (map (fun r0 => nth j r0 NaN) (df_values df)) = true).
  { apply existsb_exists; exists (nth j r NaN); split; [| exact Hnan].
    apply in_map_iff; exists r; auto. }
  congruence.
Qed.

Lemma iloc_columns (df df' : DataFrame) (idx : list nat) :
  iloc df idx = Ok df' -> df_columns df' = df_columns df.
Proof.
  unfold iloc; intros H.
  apply bind_Ok_inv in H as (ix & _ & H).
  apply bind_Ok_inv in H as (vs & _ & H).
  injection H as <-; reflexivity.
Qed.



(** ** Imputation inside a fold *)

Lemma columns_of_length (df : DataFrame) :
  length (columns_of df) = length (df_columns df).
Proof. unfold columns_of; rewrite length_map, length_seq; reflexivity. Qed.


Lemma take_columns_width (df : DataFrame) (js : list nat) (n : nat) :
  n = length js ->
  Forall (fun r => length r = n) (df_values (take_columns df js)).
Proof.
  intros ->; unfold take_columns; simpl.
  apply Forall_map, Forall_forall; intros r _.
  unfold pick; apply length_map.
Qed.



(** ** Feature selection *)

(** C2. With p-values 0.5, 0.5 and 0.001 for the three features and the
    threshold 0.05, only [cg3] is below the threshold, and the selector
    returns [cg1]: the positions found by [np.where] are used as selectors
    of [compress], which pairs them with the leading columns and keeps a
    column when the paired position is not zero. *)
Theorem select_features_pairs_positions_with_leading_columns :
  significant_columns (df_columns example_complete)
                      [Fin (1 # 2); Fin (1 # 2); Fin (1 # 1000)] (Fin (1 # 20))
  = ["cg3"]
  /\ @select_features (fixed_stats [Fin (1 # 2); Fin (1 # 2); Fin (1 # 1000)])
                      example_complete example_y "wilcox" (Fin (1 # 20))
     = Ok ["cg1"]
  /\ @select_features (fixed_stats [Fin (1 # 2); Fin (1 # 2); Fin (1 # 1000)])
                      example_complete example_y "ttest" (Fin (1 # 20))
     = Ok ["cg1"]
  /\ @select_features (fixed_stats [Fin (1 # 1000); Fin (1 # 2); Fin (1 # 1000)])
                      example_complete example_y "wilcox" (Fin (1 # 20))
     = Ok ["cg2"].
Proof. repeat split; reflexivity. Qed.

(** ** Target labels *)

(** C4. In a dataset with the groups case, control and other, the sample of
    group other gets the target 1, not a missing one; the sample without a
    row in the group table gets a missing target. *)
Theorem add_target_lables_third_category :
  exists D : Dataset,
    add_target_lables example_dataset = Ok D /\
    ds_y D = Some (mkSeries ["s1"; "s2"; "s3"; "s4"] [Fin 1; Fin 0; Fin 1; NaN]).
Proof. eexists; split; reflexivity. Qed.

(** ** Configuration strings *)

Lemma eqb_false_of_neq (a b : string) : a <> b -> String.eqb a b = false.
Proof. intros H; apply String.eqb_neq; exact H. Qed.

Lemma model_definition_unrecognized (penalty : option string) (seed : Z)
      (internalCV_folds : nat) (n_jobs : Z) (Cs : option Cs_arg)
      (l1_ratios : option (list Q)) (max_iter : Z) (class_weight : option string) :
  ~ recognized_penalty penalty ->
  model_definition penalty seed internalCV_folds n_jobs Cs l1_ratios max_iter
                   class_weight
  = Raise UnboundLocalError.
Proof.
  unfold recognized_penalty; simpl; intros H.
  destruct penalty as [p |]; [| exfalso; auto].
  unfold model_definition.
  destruct Cs as [c |];
    rewrite !eqb_false_of_neq; try reflexivity;
    intros ->; apply H; auto.
Qed.

Lemma feature_imputation_values_unrecognized (df : DataFrame) (policy : string) :
  ~ recognized_nan_policy policy ->
  feature_imputation_values df policy = Raise UnboundLocalError.
Proof.
  unfold recognized_nan_policy; simpl; intros H.
  unfold feature_imputation_values.
  rewrite !eqb_false_of_neq; try reflexivity;
    intros ->; apply H; auto.
Qed.

Lemma select_features_unrecognized (stats : Stats) (df : DataFrame) (y : Series)
      (by_ : string) (pval_thresh : float) :
  ~ recognized_feat_selection by_ ->
  select_features df y by_ pval_thresh = Ok (df_columns df).
Proof.
  unfold recognized_feat_selection; simpl; intros H.
  unfold select_features.
  rewrite !eqb_false_of_neq; try reflexivity;
    intros ->; apply H; auto.
Qed.

(** C6, as the code has it. A penalty that is not recognised makes
    [model_definition] raise and an imputation policy that is not recognised
    makes [feature_imputation_values] raise, in both cases because the
    result variable was never bound; a feature-selection method that is not
    recognised raises nothing: [select_features] returns every column. *)
Theorem unrecognized_configuration :
  forall (penalty : option string) (policy by_ : string),
    ~ recognized_penalty penalty ->
    ~ recognized_nan_policy policy ->
    ~ recognized_feat_selection by_ ->
    (forall seed internalCV_folds n_jobs Cs l1_ratios max_iter class_weight,
        model_definition penalty seed internalCV_folds n_jobs Cs l1_ratios
                         max_iter class_weight
        = Raise UnboundLocalError) /\
    (forall df, feature_imputation_values df policy = Raise UnboundLocalError) /\
    (forall (stats : Stats) df y pval_thresh,
        select_features df y by_ pval_thresh = Ok (df_columns df)).
Proof.
  intros penalty policy by_ Hpen Hpol Hby; split; [| split].
  - intros; apply model_definition_unrecognized; exact Hpen.
  - intros; apply feature_imputation_values_unrecognized; exact Hpol.
  - intros; apply select_features_unrecognized; exact Hby.
Qed.

Lemma unrecognized_configuration_witness :
  (forall seed internalCV_folds n_jobs Cs l1_ratios max_iter class_weight,
      model_definition (Some "l3") seed internalCV_folds n_jobs Cs l1_ratios
                       max_iter class_weight
      = Raise UnboundLocalError) /\
  (forall df, feature_imputation_values df "impute_by_mode"
              = Raise UnboundLocalError) /\
  (forall (stats : Stats) df y pval_thresh,
      select_features df y "anova" pval_thresh = Ok (df_columns df)).
Proof.
  apply (unrecognized_configuration (Some "l3") "impute_by_mode" "anova").
  - unfold recognized_penalty; simpl; intuition discriminate.
  - unfold recognized_nan_policy; simpl; intuition discriminate.
  - unfold recognized_feat_selection; simpl; intuition discriminate.
Defined.

(** C6, as stated, fails for the feature-selection method: ["anova"] is not
    a method the selector implements, and the selector returns all the
    columns instead of an error. *)
Lemma select_features_unrecognized_no_error :
  ~ recognized_feat_selection "anova"
  /\ @select_features (fixed_stats []) example_complete example_y "anova"
                     (Fin (1 # 100))
     = Ok ["cg1"; "cg2"; "cg3"]
  /\ ~ (forall by_ : string,
         ~ recognized_feat_selection by_ ->
         exists e : exn,
           @select_features (fixed_stats []) example_complete example_y by_
                            (Fin (1 # 100))
           = Raise e).
Proof.
  assert (H : ~ recognized_feat_selection "anova")
    by (unfold recognized_feat_selection; simpl; intuition discriminate).
  split; [exact H |].
  split; [reflexivity |].
  intros C; destruct (C "anova" H) as [e He]; discriminate He.
Qed.

(** ** Hyper-parameter grids *)

(** C3, as the code has it. With the defaults [train_test] passes
    ([Cs=None], [l1_ratios=None]): for [l1] the classifier is given the
    explicit grid [np.logspace(-4, 6, num=10)], ten values from 1e-4 to 1e6;
    for [l2] it is given the integer 10, for which it searches ten values
    log-spaced from 1e-4 to 1e4; for [elasticnet] it is given the mixing
    ratios 0.1, 0.5, 0.9 and no [Cs]. *)
Theorem model_definition_grids :
  forall (seed : Z) (internalCV_folds : nat) (n_jobs max_iter : Z)
         (class_weight : option string),
    (exists m,
        model_definition (Some "l1") seed internalCV_folds n_jobs None None
                         max_iter class_weight = Ok m /\
        lr_Cs m = Some (Cs_array (np_logspace (-4) 6 10)) /\
        searched_Cs m = np_logspace (-4) 6 10 /\
        length (searched_Cs m) = 10 /\
        hd (Lit 0) (searched_Cs m) = Pow10 (-4) /\
        last (searched_Cs m) (Lit 0) = Pow10 6) /\
    (exists m,
        model_definition (Some "l2") seed internalCV_folds n_jobs None None
                         max_iter class_weight = Ok m /\
        lr_Cs m = Some (Cs_int 10) /\
        searched_Cs m = np_logspace (-4) 4 10 /\
        length (searched_Cs m) = 10 /\
        hd (Lit 0) (searched_Cs m) = Pow10 (-4) /\
        last (searched_Cs m) (Lit 0) = Pow10 4) /\
    (exists m,
        model_definition (Some "elasticnet") seed internalCV_folds n_jobs None
                         None max_iter class_weight = Ok m /\
        lr_l1_ratios m = Some [1 # 10; 1 # 2; 9 # 10]%Q /\
        lr_Cs m = None).
Proof.
  intros; split; [| split]; eexists; repeat split; reflexivity.
Qed.

(** C3, as stated, fails for [l2]: the grid searched is not the one from
    1e-4 to 1e6; it ends at 1e4. *)
Lemma model_definition_l2_grid :
  exists m,
    model_definition (Some "l2") 42 5 (-1) None None 1000 (Some "balanced")
    = Ok m /\
    lr_Cs m = Some (Cs_int 10) /\
    searched_Cs m <> np_logspace (-4) 6 10 /\
    last (searched_Cs m) (Lit 0) = Pow10 4.
Proof.
  eexists; split; [reflexivity |].
  split; [reflexivity |].
  split; [| reflexivity].
  intros H; apply (f_equal (fun l => last l (Lit 0))) in H.
  vm_compute in H; discriminate H.
Qed.

(** ** Samples without target *)

Lemma mapM_ext_in {A B : Type} (f g : A -> result B) (l : list A) :
  (forall a, In a l -> f a = g a) -> mapM f l = mapM g l.
Proof.
  induction l as [| a l IH]; simpl; intros H; [reflexivity |].
  rewrite (H a) by auto.
  rewrite IH by auto; reflexivity.
Qed.

Lemma take_ext_in {A : Type} (l l' : list A) (idx : list nat) :
  (forall i, In i idx -> nth_error l i = nth_error l' i) ->
  take l idx = take l' idx.
Proof.
  intros H; unfold take; apply mapM_ext_in.
  intros i Hi; rewrite (H i Hi); reflexivity.
Qed.

(** The positions [np.where(y == v)[0]] hold labels equal to [v]; a missing
    label is at none of them. *)
Lemma np_where_label (y : list float) (v : float) (i : nat) :
  In i (np_where (map (fun l => feqb l v) y)) ->
  exists l, nth_error y i = Some l /\ feqb l v = true.
Proof.
  unfold np_where; rewrite filter_In, in_seq, length_map.
  intros [[_ Hi] Hc]; simpl in Hi.
  destruct (nth_error y i) as [l |] eqn:E.
  - exists l; split; [reflexivity |].
    assert (Hm : nth_error (map (fun l0 => feqb l0 v) y) i = Some (feqb l v))
      by (rewrite nth_error_map, E; reflexivity).
    rewrite (nth_error_nth _ _ false Hm) in Hc; exact Hc.
  - apply nth_error_None in E; lia.
Qed.

Lemma feqb_NaN_l (v : float) : feqb NaN v = false.
Proof. reflexivity. Qed.

Lemma missing_label_in_no_group (y : list float) (v : float) (i : nat) :
  nth_error y i = Some NaN ->
  ~ In i (np_where (map (fun l => feqb l v) y)).
Proof.
  intros Hi Hin; apply np_where_label in Hin as (l & Hl & Hv).
  rewrite Hi in Hl; injection Hl as <-; discriminate Hv.
Qed.

Lemma label_group_agree (y : Series) (df df' : DataFrame) (v : float) :
  agree_on_labelled y df df' ->
  label_group df y v = label_group df' y v.
Proof.
  intros [Hc Hr]; unfold label_group, iloc.
  set (idx := np_where (map (fun l => feqb l v) (s_values y))).
  assert (H : forall i, In i idx ->
                        nth_error (df_values df) i = nth_error (df_values df') i /\
                        nth_error (df_index df) i = nth_error (df_index df') i).
  { intros i Hi; apply np_where_label in Hi as (l & Hl & Hv).
    apply (Hr i l Hl); destruct l; simpl in *; congruence. }
  rewrite (take_ext_in (df_index df) (df_index df') idx) by (intros; apply H; auto).
  rewrite (take_ext_in (df_values df) (df_values df') idx) by (intros; apply H; auto).
  rewrite Hc; reflexivity.
Qed.

(** The outcome of the selection does not depend on the rows of the samples
    whose target is missing. *)
Lemma select_features_ignores_unlabelled (stats : Stats) (y : Series)
      (df df' : DataFrame) (by_ : string) (pval_thresh : float) :
  agree_on_labelled y df df' ->
  select_features df y by_ pval_thresh = select_features df' y by_ pval_thresh.
Proof.
  intros H; unfold select_features.
  rewrite !(label_group_agree y df df' _ H).
  destruct H as [-> _]; reflexivity.
Qed.

(** The classifier of a fold is fitted on the labels of all the train
    positions. *)
Lemma cv_fold_fit_labels (stats : Stats) (sk : Sklearn) (df : DataFrame)
      (y : Series) (penalty : option string) (internalCV_folds : nat)
      (feat_selection : option string) (pval_thresh : float)
      (nan_policy : option string) (train_index test_index : list nat)
      (f : fold_result) :
  cv_fold df y penalty internalCV_folds feat_selection pval_thresh nan_policy
          (train_index, test_index) = Ok f ->
  exists (y_train : Series) (m : LogisticRegressionCV) (X : matrix),
    series_iloc y train_index = Ok y_train /\
    length (s_values y_train) = length train_index /\
    lr_fit m X (s_values y_train) = Ok (f_model f).
Proof.
  unfold cv_fold; intros H.
  apply bind_Ok_inv in H as (df_train & _ & H).
  apply bind_Ok_inv in H as (df_test & _ & H).
  apply bind_Ok_inv in H as (y_train & Hy & H).
  apply bind_Ok_inv in H as (y_test & _ & H).
  apply bind_Ok_inv in H as ([tr te] & _ & H).
  apply bind_Ok_inv in H as ([[tr' te'] iv] & _ & H).
  apply bind_Ok_inv in H as (feats & _ & H).
  apply bind_Ok_inv in H as (X_train & _ & H).
  apply bind_Ok_inv in H as (X_test & _ & H).
  apply bind_Ok_inv in H as ([[[model scaler] y_pred] y_prob] & Htt & H).
  injection H as <-; simpl.
  unfold train_test in Htt.
  apply bind_Ok_inv in Htt as ([Xs sc] & _ & Htt).
  apply bind_Ok_inv in Htt as (Xt & _ & Htt).
  apply bind_Ok_inv in Htt as (m & _ & Htt).
  apply bind_Ok_inv in Htt as (fitted & Hfit & Htt).
  apply bind_Ok_inv in Htt as (yp & _ & Htt).
  apply bind_Ok_inv in Htt as (pr & _ & Htt).
  apply bind_Ok_inv in Htt as (col & _ & Htt).
  injection Htt as <- _ _ _.
  exists y_train, m, Xs; split; [exact Hy |]; split; [| exact Hfit].
  unfold series_iloc in Hy.
  apply bind_Ok_inv in Hy as (ix & _ & Hy).
  apply bind_Ok_inv in Hy as (vs & Hvs & Hy).
  injection Hy as <-; simpl.
  apply mapM_Ok_length in Hvs; exact Hvs.
Qed.

(** ** Aggregation of the folds *)

Lemma cv_loop_appends (sk : Sklearn) (body : split -> result fold_result)
      (splits : list split) (folds : list fold_result) (acc : cv_lists) :
  Forall2 (fun s f => body s = Ok f) splits folds ->
  cv_loop body acc splits = Ok (fold_left append_fold folds acc).
Proof.
  intros H; revert acc; induction H as [| s f splits folds Hs _ IH];
    intros acc; simpl.
  - reflexivity.
  - rewrite Hs; simpl; apply IH.
Qed.

Lemma fold_left_append_fold (sk : Sklearn) (folds : list fold_result)
      (acc : cv_lists) :
  fold_left append_fold folds acc
  = mkLists (X_tests acc ++ map f_X_test folds)
            (y_tests acc ++ map f_y_test folds)
            (models acc ++ map f_model folds)
            (scalers acc ++ map f_scaler folds)
            (feats_used acc ++ map f_feats folds)
            (y_preds acc ++ map f_y_pred folds)
            (pred_probs acc ++ map f_pred_prob folds).
Proof.
  revert acc; induction folds as [| f folds IH]; intros acc; simpl.
  - rewrite !app_nil_r; destruct acc; reflexivity.
  - rewrite IH; unfold append_fold; simpl.
    rewrite <- !app_assoc; reflexivity.
Qed.

(** C5, as the code has it. When every fold of the run succeeds, the run
    returns; its predicted classes are the concatenation, in fold order, of
    the predictions of the folds, one per test sample; its positive-class
    probabilities are kept as one list per fold, in fold order, and are not
    flattened. *)
Theorem cv_run_aggregates_in_fold_order :
  forall (stats : Stats) (sk : Sklearn) (df : DataFrame) (y : Series)
         (splits : list split) (CV : CV_arg) (penalty : option string)
         (internalCV_folds : nat) (feat_selection : option string)
         (pval_thresh : float) (nan_policy : option string) (timestamp : string)
         (folds : list fold_result),
    Forall2 (fun s f => cv_fold df y penalty internalCV_folds feat_selection
                                pval_thresh nan_policy s = Ok f)
            splits folds ->
    exists out : outputs,
      cv_run df y splits CV penalty internalCV_folds feat_selection pval_thresh
             nan_policy timestamp = Ok out /\
      o_y_pred out = concat (map f_y_pred folds) /\
      o_y_pred_prob out = map f_pred_prob folds /\
      length (o_y_pred_prob out) = length splits /\
      o_y_test out = map f_y_test folds /\
      o_trained_models out = map f_model folds.
Proof.
  intros stats sk df y splits CV penalty internalCV_folds feat_selection
         pval_thresh nan_policy timestamp folds H.
  unfold cv_run.
  rewrite (cv_loop_appends sk _ splits folds no_folds H).
  rewrite fold_left_append_fold; simpl.
  eexists; split; [reflexivity |]; simpl.
  repeat split.
  rewrite length_map; symmetry; eapply Forall2_length; exact H.
Qed.

Lemma cv_run_aggregates_in_fold_order_witness :
  exists folds : list (@fold_result recording_sklearn),
    Forall2 (fun s f => @cv_fold (fixed_stats []) recording_sklearn
                                 example_complete example_y (Some "l2") 5 None
                                 (Fin (1 # 100)) None s = Ok f)
            [([2; 3], [0; 1]); ([0; 1], [2; 3])] folds /\
    exists out : @outputs recording_sklearn,
      @cv_run (fixed_stats []) recording_sklearn example_complete example_y
              [([2; 3], [0; 1]); ([0; 1], [2; 3])] (n_splits 2) (Some "l2") 5
              None (Fin (1 # 100)) None "11/04/2023, 10:00:00" = Ok out /\
      o_y_pred out = concat (map f_y_pred folds) /\
      o_y_pred_prob out = map f_pred_prob folds /\
      length (o_y_pred_prob out) = length [([2; 3], [0; 1]); ([0; 1], [2; 3])] /\
      o_y_test out = map f_y_test folds /\
      o_trained_models out = map f_model folds.
Proof.
  eexists; split.
  - apply Forall2_cons; [reflexivity |].
    apply Forall2_cons; [reflexivity |].
    apply Forall2_nil.
  - apply (cv_run_aggregates_in_fold_order
             (fixed_stats []) recording_sklearn example_complete example_y
             [([2; 3], [0; 1]); ([0; 1], [2; 3])] (n_splits 2) (Some "l2") 5
             None (Fin (1 # 100)) None "11/04/2023, 10:00:00").
    apply Forall2_cons; [reflexivity |].
    apply Forall2_cons; [reflexivity |].
    apply Forall2_nil.
Defined.

(** C5, as stated, fails for the probabilities: after a 2-fold run over four
    samples the predicted classes are one sequence of four values, and the
    probabilities are two lists of two values. *)
Lemma cv_probabilities_kept_per_fold :
  exists out : @outputs recording_sklearn,
    @cv_train_test (fixed_stats []) recording_sklearn example_organized
                   (n_splits 2) (Some "l2") 5 None (Fin (1 # 100)) None
                   "11/04/2023, 10:00:00" = Ok out /\
    o_y_pred out = [Fin 1; Fin 1; Fin 1; Fin 1] /\
    o_y_pred_prob out = [[Fin (3 # 4); Fin (3 # 4)]; [Fin (3 # 4); Fin (3 # 4)]] /\
    length (o_y_pred_prob out) <> length (o_y_pred out).
Proof.
  eexists; split; [reflexivity |].
  split; [reflexivity |].
  split; [reflexivity |].
  simpl; discriminate.
Qed.

(** ** Scaling *)

(** The scaler a training returns is the one fitted on the train matrix; the
    test matrix is only transformed with it, and the classifier predicts on
    the transformed test matrix. *)
Lemma train_test_scaler_from_train (sk : Sklearn) (X_train X_test : matrix)
      (y_train : Series) (penalty : option string) (seed : Z)
      (internalCV_folds : nat) (n_jobs : Z) (model : Model) (scaler : Scaler)
      (y_pred y_pred_prob : list float) :
  train_test X_train X_test y_train penalty seed internalCV_folds n_jobs
  = Ok (model, scaler, y_pred, y_pred_prob) ->
  scaler_fit X_train = Ok scaler /\
  exists X_train_scaled X_test_scaled : matrix,
    scaler_transform scaler X_train = Ok X_train_scaled /\
    scaler_transform scaler X_test = Ok X_test_scaled /\
    lr_predict model X_test_scaled = Ok y_pred.
Proof.
  unfold train_test, scale_train_data; intros H.
  apply bind_Ok_inv in H as ([Xs sc] & Hs & H).
  apply bind_Ok_inv in Hs as (sc0 & Hfit & Hs).
  apply bind_Ok_inv in Hs as (Xs0 & Htr & Hs).
  injection Hs as <- <-.
  apply bind_Ok_inv in H as (Xt & Hte & H).
  apply bind_Ok_inv in H as (m & _ & H).
  apply bind_Ok_inv in H as (fitted & _ & H).
  apply bind_Ok_inv in H as (yp & Hp & H).
  apply bind_Ok_inv in H as (pr & _ & H).
  apply bind_Ok_inv in H as (col & _ & H).
  injection H as <- <- <- _.
  split; [exact Hfit |].
  exists Xs0, Xt; auto.
Qed.

(** ** What [compress] does with positions *)

Lemma filter_shifted (b : bool) (cond : list bool) (l : list nat) :
  filter (fun i => nth i (b :: cond) false) (map S l)
  = map S (filter (fun i => nth i cond false) l).
Proof.
  induction l as [| i l IH]; [reflexivity |].
  cbn [map filter].
  change (nth (S i) (b :: cond) false) with (nth i cond false).
  destruct (nth i cond false); cbn [map]; rewrite IH; reflexivity.
Qed.

Lemma np_where_cons (b : bool) (cond : list bool) :
  np_where (b :: cond) = (if b then [0] else []) ++ map S (np_where cond).
Proof.
  unfold np_where.
  change (length (b :: cond)) with (S (length cond)).
  change (seq 0 (S (length cond))) with (0 :: seq 1 (length cond)).
  rewrite <- seq_shift.
  change (filter (fun i => nth i (b :: cond) false)
                 (0 :: map S (seq 0 (length cond))))
    with (if b then 0 :: filter (fun i => nth i (b :: cond) false)
                                (map S (seq 0 (length cond)))
          else filter (fun i => nth i (b :: cond) false)
                      (map S (seq 0 (length cond)))).
  rewrite filter_shifted; destruct b; reflexivity.
Qed.

Lemma compress_successors {A : Type} (data : list A) (sel : list nat) :
  compress data (map S sel) = firstn (length sel) data.
Proof.
  revert sel; induction data as [| d data IH]; intros [| s sel]; simpl;
    try reflexivity.
  rewrite IH; reflexivity.
Qed.

(** The selection made from a mask [cond] keeps as many leading elements as
    the mask has true entries, less the first element when the mask starts
    with true. *)
Lemma compress_np_where {A : Type} (data : list A) (cond : list bool) :
  compress data (np_where cond)
  = match cond with
    | true :: cond' => skipn 1 (firstn (S (length (np_where cond'))) data)
    | false :: cond' => firstn (length (np_where cond')) data
    | [] => []
    end.
Proof.
  destruct cond as [| [|] cond].
  - destruct data; reflexivity.
  - rewrite np_where_cons; simpl.
    destruct data as [| d data]; [reflexivity |]; simpl.
    apply compress_successors.
  - rewrite np_where_cons; simpl.
    apply compress_successors.
Qed.

(** The selector on a recognised method, once the two groups and the
    p-values are there. *)
Lemma select_features_wilcox (stats : Stats) (df g0 g1 : DataFrame) (y : Series)
      (pval_thresh : float) (p_vals : list float) :
  label_group df y (Fin 0) = Ok g0 ->
  label_group df y (Fin 1) = Ok g1 ->
  mannwhitneyu (df_values g0) (df_values g1) = Ok p_vals ->
  select_features df y "wilcox" pval_thresh
  = Ok (compress (df_columns df)
                 (np_where (map (fun p => fltb p pval_thresh) p_vals))).
Proof.
  intros H0 H1 Hp; unfold select_features; simpl.
  rewrite H0, H1; simpl; rewrite Hp; reflexivity.
Qed.

(** ** Targets, sample by sample *)

Lemma target_of_binarize (labels : list (option string)) :
  map (fun p => if isnull (snd p) then NaN else fst p)
      (combine (map binarize labels) labels)
  = map target_of labels.
Proof.
  induction labels as [| [s |] labels IH]; simpl; [reflexivity | |];
    rewrite IH; reflexivity.
Qed.

Lemma filter_combine_none {B : Type} (s : string) (keys : list string)
      (vals : list B) :
  mem s keys = false ->
  filter (fun p => String.eqb (fst p) s) (combine keys vals) = [].
Proof.
  revert vals; induction keys as [| k keys IH]; intros [| v vals]; simpl;
    try reflexivity.
  intros H; apply orb_false_iff in H as [Hk Hr].
  rewrite String.eqb_sym, Hk; apply IH; exact Hr.
Qed.

Lemma lookup_label_absent (g : GroupTable) (s : string) :
  mem s (g_index g) = false -> lookup_label g s = None.
Proof.
  intros H; unfold lookup_label, group_of.
  rewrite filter_combine_none by exact H; reflexivity.
Qed.

(** The label assigned to a sample is the one of its row in the table. *)
Lemma assigned_label (g : GroupTable) (both : list string)
      (labels : list (option string)) (s : string) :
  mapM (group_of g) both = Ok labels ->
  Forall (fun k => mem k (g_index g) = true) both ->
  (mem s (g_index g) = true -> In s both) ->
  match filter (fun p => String.eqb (fst p) s) (combine both labels) with
  | (_, l) :: _ => l
  | [] => None
  end = lookup_label g s.
Proof.
  intros HM Hall Hin.
  destruct (mem s (g_index g)) eqn:Hs.
  - specialize (Hin eq_refl); clear Hall.
    apply mapM_Ok_Forall2 in HM.
    induction HM as [| k l both labels Hk _ IH]; [destruct Hin |]; simpl.
    destruct (String.eqb_spec k s) as [-> | Hne].
    + unfold lookup_label; rewrite Hk; reflexivity.
    + apply IH; destruct Hin as [E | Hin]; [contradiction | exact Hin].
  - rewrite lookup_label_absent by exact Hs.
    replace (filter _ (combine both labels)) with (@nil (string * option string));
      [reflexivity |].
    symmetry; clear HM Hin; revert labels.
    induction Hall as [| k both Hk _ IH]; intros [| l labels]; simpl;
      try reflexivity.
    destruct (String.eqb_spec k s) as [-> | Hne]; [congruence | apply IH].
Qed.

(** When the group labels include both case and control and the assignment
    succeeds, the target of each sample of the matrix is [target_of] its
    group label: missing when the sample has no row in the group table or
    an empty cell, 0 for control, and 1 for every other label. *)
Lemma add_target_lables_targets (self D : Dataset) (df : DataFrame)
      (groups : GroupTable) :
  ds_df self = Some df ->
  ds_groups self = Some groups ->
  add_target_lables self = Ok D ->
  let labels := map (lookup_label groups) (df_index df) in
  label_in "case" (unique labels) && label_in "control" (unique labels) = true ->
  ds_y D = Some (mkSeries (df_index df) (map target_of labels)).
Proof.
  intros Hdf Hg H labels Hboth.
  unfold add_target_lables in H; rewrite Hdf, Hg in H; cbn [attr bind] in H.
  apply bind_Ok_inv in H as (ls & HM & H).
  set (both := filter (fun s => mem s (g_index groups)) (df_index df)) in *.
  assert (E : map (fun s => match filter (fun p => String.eqb (fst p) s)
                                         (combine both ls) with
                            | (_, l) :: _ => l
                            | [] => None
                            end) (df_index df) = labels).
  { unfold labels; apply map_ext_in; intros s Hs.
    apply assigned_label; [exact HM | |].
    - apply Forall_forall; intros k Hk.
      unfold both in Hk; apply filter_In in Hk as [_ Hk]; exact Hk.
    - intros Hm; unfold both; apply filter_In; auto. }
  rewrite E in H; rewrite Hboth in H.
  rewrite target_of_binarize in H.
  cbn [ds_y attr bind ds_mat ds_groups ds_df ds_orig_label_names] in H.
  apply bind_Ok_inv in H as (n0 & _ & H).
  apply bind_Ok_inv in H as (n1 & _ & H).
  injection H as <-; reflexivity.
Qed.

(** ** Errors inside a training *)

(** A training asked for a penalty that is not recognised ends in an
    exception, whatever the scaler and the classifier do. *)
Lemma train_test_unrecognized_penalty (sk : Sklearn) (X_train X_test : matrix)
      (y_train : Series) (penalty : option string) (seed : Z)
      (internalCV_folds : nat) (n_jobs : Z) :
  ~ recognized_penalty penalty ->
  exists e : exn,
    train_test X_train X_test y_train penalty seed internalCV_folds n_jobs
    = Raise e.
Proof.
  intros H; unfold train_test, scale_train_data.
  destruct (scaler_fit X_train) as [sc | e]; cbn [bind]; [| eauto].
  destruct (scaler_transform sc X_train) as [Xs | e]; cbn [bind]; [| eauto].
  destruct (scaler_transform sc X_test) as [Xt | e]; cbn [bind]; [| eauto].
  rewrite model_definition_unrecognized by exact H; cbn [bind]; eauto.
Qed.

(** * Further properties *)

(** ** Filling, continued *)

Lemma zip_fill_no_nan (r values : row) :
  length r = length values ->
  existsb isnan values = false ->
  existsb isnan (zip_fill r values) = false.
Proof.
  revert values; induction r as [| x r IH]; intros [| v values]; simpl;
    intros Hl Hv; try discriminate; auto.
  apply orb_false_iff in Hv as [Hv1 Hv2].
  rewrite IH by auto.
  destruct (isnan x) eqn:Ex; [rewrite Hv1 | rewrite Ex]; reflexivity.
Qed.

Lemma map_zip_fill_no_nan (a : matrix) (values : row) :
  Forall (fun r => length r = length values) a ->
  existsb isnan values = false ->
  has_nan (map (fun r => zip_fill r values) a) = false.
Proof.
  intros H Hv; unfold has_nan.
  induction H as [| r a Hr _ IH]; simpl; [reflexivity |].
  rewrite zip_fill_no_nan by assumption; exact IH.
Qed.

(** X1. Filled with one value per column, none of them NaN, an array has no
    missing entry left, and filling it again changes nothing. *)
Theorem numba_fillna_completes :
  forall (array : matrix) (values : row),
    Forall (fun r => length r = length values) array ->
    existsb isnan values = false ->
    exists out : matrix,
      numba_fillna array values = Ok out /\
      has_nan out = false /\
      numba_fillna out values = Ok out.
Proof.
  intros array values H Hv.
  exists (map (fun r => zip_fill r values) array).
  assert (Hout : Forall (fun r => length r = length values)
                        (map (fun r => zip_fill r values) array)).
  { apply Forall_map; eapply Forall_impl; [| exact H]; simpl; intros r Hr.
    rewrite zip_fill_length; assumption. }
  split; [apply numba_fillna_aligned; exact H |].
  split; [apply map_zip_fill_no_nan; assumption |].
  rewrite numba_fillna_aligned by exact Hout.
  rewrite map_zip_fill_complete;
    [reflexivity | exact Hout | apply map_zip_fill_no_nan; assumption].
Qed.

Lemma numba_fillna_completes_witness :
  numba_fillna [[NaN; Fin 2]; [PInf; NaN]] [Fin 7; Fin 8]
  = Ok [[Fin 7; Fin 2]; [PInf; Fin 8]]
  /\ exists out : matrix,
      numba_fillna [[NaN; Fin 2]; [PInf; NaN]] [Fin 7; Fin 8] = Ok out /\
      has_nan out = false /\
      numba_fillna out [Fin 7; Fin 8] = Ok out.
Proof.
  split; [reflexivity |].
  apply (numba_fillna_completes [[NaN; Fin 2]; [PInf; NaN]] [Fin 7; Fin 8]).
  - repeat constructor.
  - reflexivity.
Defined.

Lemma fold_fadd_finite (l : list float) (q : Q) :
  forallb is_finite l = true ->
  exists q', fold_left fadd l (Fin q) = Fin q'.
Proof.
  revert q; induction l as [| x l IH]; simpl; intros q H; [eauto |].
  apply andb_true_iff in H as [Hx Hl].
  destruct x; try discriminate; simpl.
  apply IH; exact Hl.
Qed.

(** X3. An array with a missing entry whose rows have a width that is
    neither the number of fill values nor 1, the fill values not being a
    single one either, cannot be filled: [numba_fillna] raises [ValueError]. *)
Theorem numba_fillna_misaligned :
  forall (array : matrix) (values : row) (m : nat),
    has_nan array = true ->
    Forall (fun r => length r = m) array ->
    m <> length values -> m <> 1 -> length values <> 1 ->
    numba_fillna array values = Raise ValueError.
Proof.
  intros array values m Hnan Hw Hm Hm1 Hv1; unfold numba_fillna, array_sum, fsum.
  unfold has_nan in Hnan; rewrite <- existsb_concat in Hnan.
  rewrite (fold_fadd_has_NaN _ _ Hnan); simpl.
  rewrite existsb_concat in Hnan.
  destruct Hw as [| r a Hr _]; [discriminate |].
  unfold np_where_isnan; simpl.
  unfold where_isnan_row.
  rewrite Hr, (proj2 (Nat.eqb_neq _ _) Hm).
  destruct values as [| v [| v' values]]; simpl in Hv1; try contradiction;
    destruct r as [| x [| x' r]]; simpl in Hr; subst m;
    try contradiction; reflexivity.
Qed.

Lemma numba_fillna_misaligned_witness :
  numba_fillna [[Fin 1; NaN]; [Fin 3; Fin 4]] [Fin 7; Fin 8; Fin 9]
  = Raise ValueError.
Proof.
  apply (numba_fillna_misaligned
           [[Fin 1; NaN]; [Fin 3; Fin 4]] [Fin 7; Fin 8; Fin 9] 2).
  - reflexivity.
  - repeat constructor.
  - simpl; lia.
  - lia.
  - simpl; lia.
Defined.

(** ** What a fold learns from *)

Lemma feature_imputation_values_length (df : DataFrame) (policy : string)
      (imp_vals : Series) :
  feature_imputation_values df policy = Ok imp_vals ->
  length (s_values imp_vals) = length (df_columns df).
Proof.
  unfold feature_imputation_values; intros H.
  destruct (String.eqb policy "impute_by_mean");
    [injection H as <-; simpl; rewrite length_map; apply columns_of_length |].
  destruct (String.eqb policy "impute_by_median");
    [injection H as <-; simpl; rewrite length_map; apply columns_of_length |].
  destruct (String.eqb policy "zeros"); [| discriminate].
  injection H as <-; simpl; apply repeat_length.
Qed.

Lemma pd_DataFrame_Ok_inv (data : matrix) (idx cols : list string)
      (df : DataFrame) :
  pd_DataFrame data idx cols = Ok df -> df = mkDataFrame idx cols data.
Proof.
  unfold pd_DataFrame; destruct (_ && _); intros H; [| discriminate].
  injection H as <-; reflexivity.
Qed.

(** Imputation leaves a train set without missing entry as it is. *)
Lemma fold_impute_train_unchanged (nan_policy : option string)
      (df_train df_test tr te : DataFrame) (imp_vals : option Series) :
  has_nan (df_values df_train) = false ->
  Forall (fun r => length r = length (df_columns df_train)) (df_values df_train) ->
  fold_impute nan_policy df_train df_test = Ok (tr, te, imp_vals) ->
  tr = df_train.
Proof.
  intros Hc Hw H; unfold fold_impute in H.
  destruct nan_policy as [policy |];
    [| injection H as <- _ _; reflexivity].
  apply bind_Ok_inv in H as (iv & Hiv & H).
  apply feature_imputation_values_length in Hiv.
  rewrite numba_fillna_aligned in H
    by (eapply Forall_impl; [| exact Hw]; simpl; intros; congruence).
  rewrite map_zip_fill_complete in H;
    [| eapply Forall_impl; [| exact Hw]; simpl; intros; congruence | exact Hc].
  cbn [bind] in H.
  apply bind_Ok_inv in H as (df' & Hdf & H).
  apply pd_DataFrame_Ok_inv in Hdf; subst df'.
  apply bind_Ok_inv in H as (b & _ & H).
  apply bind_Ok_inv in H as (df'' & _ & H).
  injection H as <- _ _.
  destruct df_train; reflexivity.
Qed.

Lemma dropna_any_width (df : DataFrame) :
  Forall (fun r => length r = length (df_columns (dropna_any df)))
         (df_values (dropna_any df)).
Proof.
  apply take_columns_width.
  unfold dropna_any, take_columns; simpl; apply length_map.
Qed.

Lemma train_test_train_model (sk : Sklearn) (X_train X_test : matrix)
      (y_train : Series) (penalty : option string) (seed : Z)
      (internalCV_folds : nat) (n_jobs : Z) (model : Model) (scaler : Scaler)
      (y_pred y_pred_prob : list float) :
  train_test X_train X_test y_train penalty seed internalCV_folds n_jobs
  = Ok (model, scaler, y_pred, y_pred_prob) ->
  train_model X_train y_train penalty seed internalCV_folds n_jobs
  = Ok (model, scaler).
Proof.
  unfold train_test, train_model; intros H.
  apply bind_Ok_inv in H as ([Xs sc] & Hs & H); rewrite Hs; cbn [bind].
  apply bind_Ok_inv in H as (Xt & _ & H).
  apply bind_Ok_inv in H as (m & Hm & H); rewrite Hm; cbn [bind].
  apply bind_Ok_inv in H as (fitted & Hfit & H); rewrite Hfit; cbn [bind].
  apply bind_Ok_inv in H as (yp & _ & H).
  apply bind_Ok_inv in H as (pr & _ & H).
  apply bind_Ok_inv in H as (col & _ & H).
  injection H as <- <- _ _; reflexivity.
Qed.

(** The model, the scaler and the features of a fold are those of a
    training on the complete columns of its train rows. *)
Lemma cv_fold_train_side (stats : Stats) (sk : Sklearn) (df : DataFrame)
      (y : Series) (penalty : option string) (internalCV_folds : nat)
      (feat_selection : option string) (pval_thresh : float)
      (nan_policy : option string) (train_index test_index : list nat)
      (f : fold_result) :
  cv_fold df y penalty internalCV_folds feat_selection pval_thresh nan_policy
          (train_index, test_index) = Ok f ->
  exists (df_train : DataFrame) (y_train : Series) (X_train : DataFrame),
    iloc df train_index = Ok df_train /\
    series_iloc y train_index = Ok y_train /\
    match feat_selection with
    | Some by_ => select_features (dropna_any df_train) y_train by_ pval_thresh
                  = Ok (f_feats f)
    | None => f_feats f = df_columns (dropna_any df_train)
    end /\
    loc_columns (dropna_any df_train) (f_feats f) = Ok X_train /\
    train_model (df_values X_train) y_train penalty 42 internalCV_folds (-1)
    = Ok (f_model f, f_scaler f).
Proof.
  unfold cv_fold; intros H.
  apply bind_Ok_inv in H as (df_train & Htr & H).
  apply bind_Ok_inv in H as (df_test & Hte & H).
  apply bind_Ok_inv in H as (y_train & Hy & H).
  apply bind_Ok_inv in H as (y_test & _ & H).
  apply bind_Ok_inv in H as ([tr0 te0] & Hdrop & H).
  apply bind_Ok_inv in H as ([[tr te] iv] & Himp & H).
  apply bind_Ok_inv in H as (feats & Hsel & H).
  apply bind_Ok_inv in H as (X_train & HXtr & H).
  apply bind_Ok_inv in H as (X_test & _ & H).
  apply bind_Ok_inv in H as ([[[model scaler] y_pred] y_prob] & Htt & H).
  injection H as <-; simpl.
  unfold fold_dropna in Hdrop.
  apply bind_Ok_inv in Hdrop as (te1 & _ & Hdrop).
  injection Hdrop as <- <-.
  apply fold_impute_train_unchanged in Himp;
    [| apply dropna_any_complete | apply dropna_any_width].
  subst tr.
  exists df_train, y_train, X_train.
  split; [exact Htr |]; split; [exact Hy |]; split; [| split].
  - destruct feat_selection as [by_ |]; [exact Hsel |].
    injection Hsel as <-; reflexivity.
  - exact HXtr.
  - eapply train_test_train_model; exact Htt.
Qed.

(** X4. Two folds over datasets that have the same rows and the same
    targets at the train positions, whatever their test rows, test targets
    and test positions: when both succeed they have the same classifier, the
    same scaler and the same features. *)
Theorem cv_fold_independent_of_test :
  forall (stats : Stats) (sk : Sklearn) (df1 df2 : DataFrame) (y1 y2 : Series)
         (penalty : option string) (internalCV_folds : nat)
         (feat_selection : option string) (pval_thresh : float)
         (nan_policy : option string)
         (train_index test_index1 test_index2 : list nat)
         (f1 f2 : fold_result),
    iloc df1 train_index = iloc df2 train_index ->
    series_iloc y1 train_index = series_iloc y2 train_index ->
    cv_fold df1 y1 penalty internalCV_folds feat_selection pval_thresh
            nan_policy (train_index, test_index1) = Ok f1 ->
    cv_fold df2 y2 penalty internalCV_folds feat_selection pval_thresh
            nan_policy (train_index, test_index2) = Ok f2 ->
    f_model f1 = f_model f2 /\
    f_scaler f1 = f_scaler f2 /\
    f_feats f1 = f_feats f2.
Proof.
  intros stats sk df1 df2 y1 y2 penalty internalCV_folds feat_selection
         pval_thresh nan_policy train_index test_index1 test_index2 f1 f2
         Hdf Hy H1 H2.
  apply cv_fold_train_side in H1 as (tr1 & yt1 & X1 & Ht1 & Hy1 & Hf1 & HX1 & M1).
  apply cv_fold_train_side in H2 as (tr2 & yt2 & X2 & Ht2 & Hy2 & Hf2 & HX2 & M2).
  assert (tr2 = tr1) by congruence; subst tr2.
  assert (yt2 = yt1) by congruence; subst yt2.
  assert (Hfe : f_feats f1 = f_feats f2).
  { destruct feat_selection; congruence. }
  rewrite <- Hfe in HX2.
  assert (X2 = X1) by congruence; subst X2.
  rewrite M1 in M2; injection M2 as <- <-; auto.
Qed.

Lemma cv_fold_independent_of_test_witness :
  exists f1 f2 : @fold_result recording_sklearn,
    @cv_fold (fixed_stats [Fin (1 # 2); Fin (1 # 100); Fin (1 # 1000)])
             recording_sklearn example_complete example_y (Some "l1") 5
             (Some "wilcox") (Fin (1 # 20)) (Some "impute_by_median")
             ([0; 1; 2], [3]) = Ok f1 /\
    @cv_fold (fixed_stats [Fin (1 # 2); Fin (1 # 100); Fin (1 # 1000)])
             recording_sklearn example_complete_s4 example_y_s4 (Some "l1") 5
             (Some "wilcox") (Fin (1 # 20)) (Some "impute_by_median")
             ([0; 1; 2], [3; 3]) = Ok f2 /\
    f_X_test f1 <> f_X_test f2 /\
    (f_model f1 = f_model f2 /\
     f_scaler f1 = f_scaler f2 /\
     f_feats f1 = f_feats f2).
Proof.
  do 2 eexists.
  split; [reflexivity |].
  split; [reflexivity |].
  split; [simpl; discriminate |].
  apply (cv_fold_independent_of_test
           (fixed_stats [Fin (1 # 2); Fin (1 # 100); Fin (1 # 1000)])
           recording_sklearn example_complete example_complete_s4
           example_y example_y_s4 (Some "l1") 5 (Some "wilcox") (Fin (1 # 20))
           (Some "impute_by_median") [0; 1; 2] [3] [3; 3]);
    reflexivity.
Defined.

(** X5. The imputation policy of a fold has no part in what the fold learns:
    two folds over the same data that differ by their policy (or by having
    none) have, when both succeed, the same classifier, the same scaler and
    the same features.  The train set has lost every column with a missing
    value before imputation, so only the test set is ever filled. *)
Theorem cv_fold_independent_of_nan_policy :
  forall (stats : Stats) (sk : Sklearn) (df : DataFrame) (y : Series)
         (penalty : option string) (internalCV_folds : nat)
         (feat_selection : option string) (pval_thresh : float)
         (nan_policy1 nan_policy2 : option string) (s : split)
         (f1 f2 : fold_result),
    cv_fold df y penalty internalCV_folds feat_selection pval_thresh
            nan_policy1 s = Ok f1 ->
    cv_fold df y penalty internalCV_folds feat_selection pval_thresh
            nan_policy2 s = Ok f2 ->
    f_model f1 = f_model f2 /\
    f_scaler f1 = f_scaler f2 /\
    f_feats f1 = f_feats f2.
Proof.
  intros stats sk df y penalty internalCV_folds feat_selection pval_thresh
         nan_policy1 nan_policy2 [train_index test_index] f1 f2 H1 H2.
  apply cv_fold_train_side in H1 as (tr1 & yt1 & X1 & Ht1 & Hy1 & Hf1 & HX1 & M1).
  apply cv_fold_train_side in H2 as (tr2 & yt2 & X2 & Ht2 & Hy2 & Hf2 & HX2 & M2).
  assert (tr2 = tr1) by congruence; subst tr2.
  assert (yt2 = yt1) by congruence; subst yt2.
  assert (Hfe : f_feats f1 = f_feats f2).
  { destruct feat_selection; congruence. }
  rewrite <- Hfe in HX2.
  assert (X2 = X1) by congruence; subst X2.
  rewrite M1 in M2; injection M2 as <- <-; auto.
Qed.

Lemma cv_fold_independent_of_nan_policy_witness :
  exists f1 f2 : @fold_result recording_sklearn,
    @cv_fold (fixed_stats []) recording_sklearn example_df example_y3
             (Some "l2") 5 None (Fin (1 # 20)) (Some "zeros") ([0; 2], [1])
    = Ok f1 /\
    @cv_fold (fixed_stats []) recording_sklearn example_df example_y3
             (Some "l2") 5 None (Fin (1 # 20)) None ([0; 2], [1])
    = Ok f2 /\
    f_X_test f1 = [[Fin (2 # 10); Fin 0]] /\
    f_X_test f2 = [[Fin (2 # 10); NaN]] /\
    (f_model f1 = f_model f2 /\
     f_scaler f1 = f_scaler f2 /\
     f_feats f1 = f_feats f2).
Proof.
  do 2 eexists.
  split; [reflexivity |].
  split; [reflexivity |].
  split; [reflexivity |].
  split; [reflexivity |].
  apply (cv_fold_independent_of_nan_policy
           (fixed_stats []) recording_sklearn example_df example_y3 (Some "l2")
           5 None (Fin (1 # 20)) (Some "zeros") None ([0; 2], [1]));
    reflexivity.
Defined.

(** X6. The classifier and the scaler of a fold are what [train_model]
    returns on the train rows, cut to their complete columns and then to the
    features of the fold, with the targets at the train positions. *)
Theorem cv_fold_model_is_train_model :
  forall (stats : Stats) (sk : Sklearn) (df df_train : DataFrame) (y y_train : Series)
         (penalty : option string) (internalCV_folds : nat)
         (feat_selection : option string) (pval_thresh : float)
         (nan_policy : option string) (train_index test_index : list nat)
         (f : fold_result),
    iloc df train_index = Ok df_train ->
    series_iloc y train_index = Ok y_train ->
    cv_fold df y penalty internalCV_folds feat_selection pval_thresh nan_policy
            (train_index, test_index) = Ok f ->
    exists X_train : DataFrame,
      loc_columns (dropna_any df_train) (f_feats f) = Ok X_train /\
      train_model (df_values X_train) y_train penalty 42 internalCV_folds (-1)
      = Ok (f_model f, f_scaler f).
Proof.
  intros stats sk df df_train y y_train penalty internalCV_folds feat_selection
         pval_thresh nan_policy train_index test_index f Htr Hy H.
  apply cv_fold_train_side in H as (tr & yt & X & Ht & Hyt & _ & HX & M).
  assert (tr = df_train) by congruence; subst tr.
  assert (yt = y_train) by congruence; subst yt.
  exists X; auto.
Qed.

Lemma cv_fold_model_is_train_model_witness :
  exists f : @fold_result recording_sklearn,
    @cv_fold (fixed_stats []) recording_sklearn example_df example_y3
             (Some "l2") 5 None (Fin (1 # 20)) (Some "zeros") ([0; 2], [1])
    = Ok f /\
    exists X_train : DataFrame,
      loc_columns (dropna_any example_train) (f_feats f) = Ok X_train /\
      @train_model recording_sklearn (df_values X_train)
                   (mkSeries ["s1"; "s3"] [Fin 0; Fin 1]) (Some "l2") 42 5 (-1)
      = Ok (f_model f, f_scaler f).
Proof.
  eexists; split; [reflexivity |].
  apply (cv_fold_model_is_train_model
           (fixed_stats []) recording_sklearn example_df example_train
           example_y3 (mkSeries ["s1"; "s3"] [Fin 0; Fin 1]) (Some "l2") 5 None
           (Fin (1 # 20)) (Some "zeros") [0; 2] [1]);
    reflexivity.
Defined.

(** ** A fold that fails *)

Lemma cv_loop_aborts (sk : Sklearn) (body : split -> result fold_result)
      (pre post : list split) (s : split) (folds : list fold_result)
      (acc : cv_lists) (e : exn) :
  Forall2 (fun s0 f => body s0 = Ok f) pre folds ->
  body s = Raise e ->
  cv_loop body acc (pre ++ s :: post) = Raise e.
Proof.
  intros H Hs; revert acc; induction H as [| s0 f pre folds H0 _ IH];
    intros acc; simpl.
  - rewrite Hs; reflexivity.
  - rewrite H0; simpl; apply IH.
Qed.

(** X7. A run stops at the first fold that raises: whatever folds succeeded
    before it and whatever folds would follow, the run ends with the
    exception of that fold and returns no outputs. *)
Theorem cv_run_aborts_at_first_failure :
  forall (stats : Stats) (sk : Sklearn) (df : DataFrame) (y : Series)
         (pre post : list split) (s : split) (folds : list fold_result)
         (e : exn) (CV : CV_arg) (penalty : option string)
         (internalCV_folds : nat) (feat_selection : option string)
         (pval_thresh : float) (nan_policy : option string) (timestamp : string),
    Forall2 (fun s0 f => cv_fold df y penalty internalCV_folds feat_selection
                                 pval_thresh nan_policy s0 = Ok f)
            pre folds ->
    cv_fold df y penalty internalCV_folds feat_selection pval_thresh nan_policy s
    = Raise e ->
    cv_run df y (pre ++ s :: post) CV penalty internalCV_folds feat_selection
           pval_thresh nan_policy timestamp
    = Raise e.
Proof.
  intros stats sk df y pre post s folds e CV penalty internalCV_folds
         feat_selection pval_thresh nan_policy timestamp Hpre Hs.
  unfold cv_run.
  rewrite (cv_loop_aborts sk _ pre post s folds no_folds e Hpre Hs).
  reflexivity.
Qed.

Lemma cv_run_aborts_at_first_failure_witness :
  @cv_run (fixed_stats []) recording_sklearn example_complete example_y
          ([([2; 3], [0; 1])] ++ ([0; 1], [7]) :: [([0; 1], [2; 3])])
          (n_splits 3) (Some "l2") 5 None (Fin (1 # 100)) None
          "11/04/2023, 10:00:00"
  = Raise IndexError.
Proof.
  eapply (cv_run_aborts_at_first_failure
            (fixed_stats []) recording_sklearn example_complete example_y
            [([2; 3], [0; 1])] [([0; 1], [2; 3])] ([0; 1], [7])).
  - apply Forall2_cons; [reflexivity | apply Forall2_nil].
  - reflexivity.
Defined.

(** ** What the selector returns *)

Lemma compress_incl {A : Type} (data : list A) (sel : list nat) (x : A) :
  In x (compress data sel) -> In x data.
Proof.
  revert sel; induction data as [| d data IH]; intros [| s sel]; simpl;
    try contradiction.
  destruct (Nat.eqb s 0); simpl; intros H.
  - right; eapply IH; exact H.
  - destruct H as [-> | H]; [left; reflexivity | right; eapply IH; exact H].
Qed.

Lemma compress_NoDup {A : Type} (data : list A) (sel : list nat) :
  NoDup data -> NoDup (compress data sel).
Proof.
  intros H; revert sel; induction H as [| d data Hd _ IH]; intros [| s sel];
    simpl; try constructor.
  destruct (Nat.eqb s 0); [apply IH |].
  constructor; [| apply IH].
  intros Hin; apply Hd; eapply compress_incl; exact Hin.
Qed.

Lemma select_features_from_columns (stats : Stats) (df : DataFrame) (y : Series)
      (by_ : string) (pval_thresh : float) (feats : list string) :
  select_features df y by_ pval_thresh = Ok feats ->
  exists sel : list nat, feats = compress (df_columns df) sel
                         \/ feats = df_columns df.
Proof.
  unfold select_features; intros H.
  destruct (String.eqb by_ "wilcox").
  - apply bind_Ok_inv in H as (g0 & _ & H).
    apply bind_Ok_inv in H as (g1 & _ & H).
    apply bind_Ok_inv in H as (p & _ & H).
    injection H as <-; eexists; left; reflexivity.
  - destruct (String.eqb by_ "ttest").
    + apply bind_Ok_inv in H as (g0 & _ & H).
      apply bind_Ok_inv in H as (g1 & _ & H).
      apply bind_Ok_inv in H as (p & _ & H).
      injection H as <-; eexists; left; reflexivity.
    + injection H as <-; exists []; right; reflexivity.
Qed.

Lemma positions_of_In (name : string) (cols : list string) :
  In name cols -> positions_of name cols <> [].
Proof.
  intros H Hnil.
  destruct (In_nth cols name "" H) as (j & Hj & Hn).
  assert (Hin : In j (positions_of name cols)).
  { unfold positions_of; apply filter_In; split.
    - apply in_seq; lia.
    - rewrite Hn; apply String.eqb_refl. }
  rewrite Hnil in Hin; destruct Hin.
Qed.

Lemma names_at_positions (cols names : list string) :
  incl names cols ->
  exists js : list nat,
    Forall (fun j => j < length cols) js /\
    names = map (fun j => nth j cols "") js.
Proof.
  induction names as [| nm names IH]; intros H.
  - exists []; split; [constructor | reflexivity].
  - destruct IH as (js & Hjs & E); [intros x Hx; apply H; right; exact Hx |].
    destruct (In_nth cols nm "" (H nm (or_introl eq_refl))) as (j & Hj & Hn).
    exists (j :: js); split; [constructor; assumption |].
    simpl; rewrite Hn, <- E; reflexivity.
Qed.

(** X8. The features the selector returns are columns of the frame it was
    given, none of them twice when the feature ids are unique; cutting the
    frame to them with [df.loc[:, feats]] therefore raises no [KeyError] and
    gives exactly these columns, for the same samples. *)
Theorem select_features_can_be_located :
  forall (stats : Stats) (df : DataFrame) (y : Series) (by_ : string)
         (pval_thresh : float) (feats : list string),
    NoDup (df_columns df) ->
    select_features df y by_ pval_thresh = Ok feats ->
    incl feats (df_columns df) /\
    NoDup feats /\
    exists X : DataFrame,
      loc_columns df feats = Ok X /\
      df_columns X = feats /\
      df_index X = df_index df /\
      length (df_values X) = length (df_values df).
Proof.
  intros stats df y by_ pval_thresh feats Hnd H.
  apply select_features_from_columns in H as (sel & [-> | ->]).
  - assert (Hincl : incl (compress (df_columns df) sel) (df_columns df))
      by (intros x; apply compress_incl).
    split; [exact Hincl |].
    split; [apply compress_NoDup; exact Hnd |].
    destruct (names_at_positions _ _ Hincl) as (js & Hjs & E).
    rewrite E, loc_columns_by_position by assumption.
    eexists; split; [reflexivity |]; simpl.
    repeat split; apply length_map.
  - split; [apply incl_refl |].
    split; [exact Hnd |].
    destruct (names_at_positions _ _ (incl_refl (df_columns df))) as (js & Hjs & E).
    assert (HL : loc_columns df (map (fun j => nth j (df_columns df) "") js)
                 = Ok (take_columns df js))
      by (apply loc_columns_by_position; assumption).
    rewrite <- E in HL.
    exists (take_columns df js); split; [exact HL |]; simpl.
    split; [symmetry; exact E |].
    split; [reflexivity | apply length_map].
Qed.

Lemma select_features_can_be_located_witness :
  @select_features (fixed_stats [Fin (1 # 100); Fin (1 # 2); Fin (1 # 1000)])
                   example_complete example_y "ttest" (Fin (1 # 20))
  = Ok ["cg2"]
  /\ (incl ["cg2"] (df_columns example_complete) /\
      NoDup ["cg2"] /\
      exists X : DataFrame,
        loc_columns example_complete ["cg2"] = Ok X /\
        df_columns X = ["cg2"] /\
        df_index X = df_index example_complete /\
        length (df_values X) = length (df_values example_complete)).
Proof.
  split; [reflexivity |].
  apply (select_features_can_be_located
           (fixed_stats [Fin (1 # 100); Fin (1 # 2); Fin (1 # 1000)])
           example_complete example_y "ttest" (Fin (1 # 20)) ["cg2"]).
  - repeat constructor; simpl; intuition discriminate.
  - reflexivity.
Defined.

(** ** Labels that outrun the frame *)

Lemma mapM_raises {A B : Type} (f : A -> result B) (l : list A) (e : exn) :
  (forall a e', In a l -> f a = Raise e' -> e' = e) ->
  (exists a, In a l /\ f a = Raise e) ->
  mapM f l = Raise e.
Proof.
  induction l as [| a l IH]; intros Hall (x & Hx & Hfx); [destruct Hx |].
  simpl; destruct (f a) as [b | e'] eqn:Ea; simpl.
  - rewrite IH; [reflexivity | |].
    + intros a0 e0 Ha0; apply Hall; right; exact Ha0.
    + destruct Hx as [-> | Hx]; [congruence | eauto].
  - f_equal; eapply Hall; [left; reflexivity | exact Ea].
Qed.

Lemma take_out_of_range {A : Type} (l : list A) (idx : list nat) (i : nat) :
  In i idx -> length l <= i -> take l idx = Raise IndexError.
Proof.
  intros Hi Hle; unfold take; apply mapM_raises.
  - intros a e' _; destruct (nth_error l a); [discriminate | congruence].
  - exists i; split; [exact Hi |].
    rewrite (proj2 (nth_error_None l i) Hle); reflexivity.
Qed.

Lemma iloc_only_IndexError (df : DataFrame) (idx : list nat) (e : exn) :
  iloc df idx = Raise e -> e = IndexError.
Proof.
  assert (T : forall (A : Type) (l : list A) e',
             take l idx = Raise e' -> e' = IndexError).
  { intros A l e'; unfold take; induction idx as [| i idx IH]; simpl;
      [discriminate |].
    destruct (nth_error l i); simpl; [| congruence].
    destruct (mapM _ idx); simpl; [discriminate |].
    intros H; injection H as <-; apply IH; reflexivity. }
  unfold iloc.
  destruct (take (df_index df) idx) eqn:E1; simpl; [| intros H; injection H as <-; eauto].
  destruct (take (df_values df) idx) eqn:E2; simpl; [discriminate |].
  intros H; injection H as <-; eauto.
Qed.

Lemma np_where_label_In (y : list float) (v l : float) (i : nat) :
  nth_error y i = Some l -> feqb l v = true ->
  In i (np_where (map (fun l0 => feqb l0 v) y)).
Proof.
  intros Hi Hv; unfold np_where; apply filter_In; split.
  - apply in_seq; rewrite length_map.
    assert (i < length y) by (apply nth_error_Some; congruence); lia.
  - assert (Hm : nth_error (map (fun l0 => feqb l0 v) y) i = Some (feqb l v))
      by (rewrite nth_error_map, Hi; reflexivity).
    rewrite (nth_error_nth _ _ false Hm); exact Hv.
Qed.

Lemma label_group_out_of_range (df : DataFrame) (y : Series) (v l : float)
      (i : nat) :
  nth_error (s_values y) i = Some l -> feqb l v = true ->
  length (df_index df) <= i ->
  label_group df y v = Raise IndexError.
Proof.
  intros Hi Hv Hle; unfold label_group, iloc.
  rewrite (take_out_of_range (df_index df) _ i);
    [reflexivity | eapply np_where_label_In; eassumption | exact Hle].
Qed.

(** X9. When the labels go on past the rows of the frame and a label 0 or 1
    sits at such a position, a selection by [wilcox] or [ttest] raises
    [IndexError]: the rows of the two groups are taken by position. *)
Theorem select_features_labels_past_frame :
  forall (stats : Stats) (df : DataFrame) (y : Series) (by_ : string)
         (pval_thresh l : float) (i : nat),
    recognized_feat_selection by_ ->
    nth_error (s_values y) i = Some l ->
    feqb l (Fin 0) = true \/ feqb l (Fin 1) = true ->
    length (df_index df) <= i ->
    select_features df y by_ pval_thresh = Raise IndexError.
Proof.
  intros stats df y by_ pval_thresh l i Hby Hi Hl Hle.
  assert (G : label_group df y (Fin 0) = Raise IndexError
              \/ (exists g0, label_group df y (Fin 0) = Ok g0) /\
                 label_group df y (Fin 1) = Raise IndexError).
  { destruct Hl as [H0 | H1].
    - left; eapply label_group_out_of_range; eassumption.
    - destruct (label_group df y (Fin 0)) as [g0 | e] eqn:E0.
      + right; split; [eauto |].
        eapply label_group_out_of_range; eassumption.
      + left; f_equal; eapply iloc_only_IndexError; exact E0. }
  unfold recognized_feat_selection in Hby; simpl in Hby.
  unfold select_features.
  destruct Hby as [<- | [<- | []]]; simpl;
    destruct G as [-> | [[g0 ->] ->]]; reflexivity.
Qed.

Lemma select_features_labels_past_frame_witness :
  @select_features (fixed_stats []) example_df example_y "wilcox" (Fin (1 # 20))
  = Raise IndexError.
Proof.
  apply (select_features_labels_past_frame
           (fixed_stats []) example_df example_y "wilcox" (Fin (1 # 20))
           (Fin 1) 3).
  - unfold recognized_feat_selection; simpl; auto.
  - reflexivity.
  - right; reflexivity.
  - simpl; lia.
Defined.

(** X10. What a selection by [wilcox] or [ttest] returns, once the groups
    are formed and the p-values are there: with [k] p-values below the
    threshold, the names of the first [k] columns when the first p-value is
    not below the threshold, and those of the first [k] columns less the
    first one when it is. *)
Theorem select_features_returns_leading_columns :
  forall (stats : Stats) (df g0 g1 : DataFrame) (y : Series) (by_ : string)
         (pval_thresh p : float) (p_vals : list float),
    recognized_feat_selection by_ ->
    label_group df y (Fin 0) = Ok g0 ->
    label_group df y (Fin 1) = Ok g1 ->
    (if String.eqb by_ "wilcox" then mannwhitneyu else ttest_ind)
      (df_values g0) (df_values g1) = Ok (p :: p_vals) ->
    let k := length (filter (fun q => fltb q pval_thresh) (p :: p_vals)) in
    select_features df y by_ pval_thresh
    = Ok (if fltb p pval_thresh
          then skipn 1 (firstn k (df_columns df))
          else firstn k (df_columns df)).
Proof.
  intros stats df g0 g1 y by_ pval_thresh p p_vals Hby H0 H1 Hp k.
  assert (L : forall c : list bool,
             length (np_where c) = length (filter (fun b => b) c)).
  { induction c as [| b c IH]; [reflexivity |].
    rewrite np_where_cons, length_app, length_map, IH.
    destruct b; reflexivity. }
  assert (K : forall ps : list float,
             length (filter (fun b => b) (map (fun q => fltb q pval_thresh) ps))
             = length (filter (fun q => fltb q pval_thresh) ps)).
  { induction ps as [| q ps IH]; simpl; [reflexivity |].
    destruct (fltb q pval_thresh); simpl; rewrite IH; reflexivity. }
  assert (R : select_features df y by_ pval_thresh
              = Ok (compress (df_columns df)
                             (np_where (map (fun q => fltb q pval_thresh)
                                            (p :: p_vals))))).
  { unfold recognized_feat_selection in Hby; simpl in Hby.
    unfold select_features.
    destruct Hby as [<- | [<- | []]]; simpl in *;
      rewrite H0, H1; simpl; rewrite Hp; reflexivity. }
  rewrite R, compress_np_where; f_equal.
  unfold k; simpl.
  destruct (fltb p pval_thresh); simpl; rewrite L, K; reflexivity.
Qed.

Lemma select_features_returns_leading_columns_witness :
  @select_features (fixed_stats [Fin (1 # 100); Fin (1 # 2); Fin (1 # 1000)])
                   example_complete example_y "wilcox" (Fin (1 # 20))
  = Ok ["cg2"].
Proof.
  apply (select_features_returns_leading_columns
           (fixed_stats [Fin (1 # 100); Fin (1 # 2); Fin (1 # 1000)])
           example_complete
           (mkDataFrame ["s1"; "s2"] ["cg1"; "cg2"; "cg3"]
                        [[Fin (5 # 10); Fin (2 # 10); Fin (1 # 10)];
                         [Fin (4 # 10); Fin (6 # 10); Fin (2 # 10)]])
           (mkDataFrame ["s3"; "s4"] ["cg1"; "cg2"; "cg3"]
                        [[Fin (6 # 10); Fin (3 # 10); Fin (8 # 10)];
                         [Fin (5 # 10); Fin (5 # 10); Fin (9 # 10)]])
           example_y "wilcox" (Fin (1 # 20)) (Fin (1 # 100))
           [Fin (1 # 2); Fin (1 # 1000)]).
  - unfold recognized_feat_selection; simpl; auto.
  - reflexivity.
  - reflexivity.
  - reflexivity.
Defined.

(** ** Target assignment *)

(** X11. When the group labels of the matrix samples include both case and
    control and the assignment succeeds, the targets are indexed by the
    samples of the matrix, in their order, and the target of a sample is 0
    when its group is control, missing when it has no row in the group table
    or an empty cell there, and 1 for any other group. *)
Theorem add_target_lables_sample_targets :
  forall (self D : Dataset) (df : DataFrame) (groups : GroupTable),
    ds_df self = Some df ->
    ds_groups self = Some groups ->
    label_in "case" (unique (map (lookup_label groups) (df_index df)))
    && label_in "control" (unique (map (lookup_label groups) (df_index df)))
    = true ->
    add_target_lables self = Ok D ->
    exists y : Series,
      ds_y D = Some y /\
      s_index y = df_index df /\
      forall i s, nth_error (df_index df) i = Some s ->
                  nth_error (s_values y) i
                  = Some (match lookup_label groups s with
                          | None => NaN
                          | Some l => if String.eqb l "control" then Fin 0
                                      else Fin 1
                          end).
Proof.
  intros self D df groups Hdf Hg Hboth H.
  pose proof (add_target_lables_targets self D df groups Hdf Hg H Hboth) as Hy.
  simpl in Hy; eexists; split; [exact Hy |]; simpl.
  split; [reflexivity |].
  intros i s Hi.
  rewrite map_map, nth_error_map, Hi; reflexivity.
Qed.

Lemma add_target_lables_sample_targets_witness :
  add_target_lables example_dataset = Ok example_dataset_labelled
  /\ exists y : Series,
      ds_y example_dataset_labelled = Some y /\
      s_index y = df_index example_complete /\
      forall i s, nth_error (df_index example_complete) i = Some s ->
                  nth_error (s_values y) i
                  = Some (match lookup_label
                                  (mkGroups ["s1"; "s2"; "s3"]
                                            [Some "case"; Some "control";
                                             Some "other"]) s with
                          | None => NaN
                          | Some l => if String.eqb l "control" then Fin 0
                                      else Fin 1
                          end).
Proof.
  split; [reflexivity |].
  apply (add_target_lables_sample_targets
           example_dataset example_dataset_labelled example_complete
           (mkGroups ["s1"; "s2"; "s3"]
                     [Some "case"; Some "control"; Some "other"]));
    reflexivity.
Defined.

Lemma value_count_Ok_In (y : Series) (v : float) (n : nat) :
  value_count y v = Ok n ->
  exists x, In x (s_values y) /\ feqb x v = true.
Proof.
  unfold value_count.
  destruct (filter (fun x => feqb x v) (s_values y)) as [| x l] eqn:E;
    simpl; [discriminate |]; intros _.
  assert (Hx : In x (filter (fun x0 => feqb x0 v) (s_values y)))
    by (rewrite E; left; reflexivity).
  apply filter_In in Hx; eauto.
Qed.

Lemma target_of_is_target (l : option string) : is_target (target_of l).
Proof.
  unfold is_target, target_of; destruct l as [s |]; [| auto].
  destruct (String.eqb s "control"); auto.
Qed.

Lemma target_feqb (x v : float) :
  is_target x -> In v [Fin 0; Fin 1] -> feqb x v = true -> x = v.
Proof.
  unfold is_target; simpl.
  intros [-> | [-> | ->]] [<- | [<- | []]] H; try reflexivity;
    vm_compute in H; discriminate H.
Qed.

(** X12. On a dataset that has no targets yet, a target assignment that
    succeeds leaves targets indexed by the samples of the matrix, one per
    sample, each of them 0, 1 or missing, with both 0 and 1 among them; the
    matrix and the group table are left as they were. *)
Theorem add_target_lables_fresh :
  forall (self D : Dataset) (df : DataFrame),
    ds_df self = Some df ->
    ds_y self = None ->
    add_target_lables self = Ok D ->
    exists y : Series,
      ds_y D = Some y /\
      s_index y = df_index df /\
      length (s_values y) = length (df_index df) /\
      Forall is_target (s_values y) /\
      In (Fin 0) (s_values y) /\
      In (Fin 1) (s_values y) /\
      ds_df D = ds_df self /\
      ds_groups D = ds_groups self /\
      ds_mat D = ds_mat self.
Proof.
  intros self D df Hdf Hy H.
  unfold add_target_lables in H; rewrite Hdf in H; cbn [attr bind] in H.
  apply bind_Ok_inv in H as (groups & Hg & H).
  apply bind_Ok_inv in H as (ls & _ & H).
  match type of H with
  | context [map ?f (df_index df)] => set (orig := map f (df_index df)) in H
  end.
  destruct (label_in "case" (unique orig) && label_in "control" (unique orig)).
  - rewrite target_of_binarize in H.
    cbn [ds_y attr bind ds_mat ds_groups ds_df ds_orig_label_names] in H.
    apply bind_Ok_inv in H as (n0 & C0 & H).
    apply bind_Ok_inv in H as (n1 & C1 & H).
    injection H as <-; simpl.
    assert (T : Forall is_target (map target_of orig)).
    { apply Forall_map, Forall_forall; intros l _; apply target_of_is_target. }
    eexists; split; [reflexivity |]; simpl.
    split; [reflexivity |].
    split; [unfold orig; rewrite !length_map; reflexivity |].
    split; [exact T |].
    apply value_count_Ok_In in C0 as (x0 & Hx0 & E0).
    apply value_count_Ok_In in C1 as (x1 & Hx1 & E1).
    simpl in Hx0, Hx1.
    rewrite Forall_forall in T.
    apply target_feqb in E0; [| apply T; exact Hx0 | simpl; auto].
    apply target_feqb in E1; [| apply T; exact Hx1 | simpl; auto].
    subst x0 x1; auto.
  - cbn [ds_y attr bind] in H; rewrite Hy in H; discriminate H.
Qed.

Lemma add_target_lables_fresh_witness :
  add_target_lables example_dataset = Ok example_dataset_labelled
  /\ exists y : Series,
      ds_y example_dataset_labelled = Some y /\
      s_index y = df_index example_complete /\
      length (s_values y) = length (df_index example_complete) /\
      Forall is_target (s_values y) /\
      In (Fin 0) (s_values y) /\
      In (Fin 1) (s_values y) /\
      ds_df example_dataset_labelled = ds_df example_dataset /\
      ds_groups example_dataset_labelled = ds_groups example_dataset /\
      ds_mat example_dataset_labelled = ds_mat example_dataset.
Proof.
  split; [reflexivity |].
  apply (add_target_lables_fresh
           example_dataset example_dataset_labelled example_complete);
    reflexivity.
Defined.

Lemma unique_incl (l : list (option string)) (x : option string) :
  In x (unique l) -> In x l.
Proof.
  induction l as [| a l IH]; simpl; [auto |].
  intros [-> | H]; [left; reflexivity |].
  apply filter_In in H as [H _]; right; apply IH; exact H.
Qed.

Lemma label_eqb_eq (a b : option string) : label_eqb a b = true -> a = b.
Proof.
  destruct a as [x |], b as [z |]; simpl; try discriminate; [| reflexivity].
  intros H; apply String.eqb_eq in H; congruence.
Qed.

Lemma group_of_In (g : GroupTable) (s : string) (l : option string) :
  group_of g s = Ok l -> In l (g_Group g).
Proof.
  unfold group_of.
  destruct (filter _ (combine (g_index g) (g_Group g))) as [| [k l0] [| p r]] eqn:E;
    try discriminate.
  intros H; injection H as <-.
  assert (Hin : In (k, l0) (filter (fun p => String.eqb (fst p) s)
                                   (combine (g_index g) (g_Group g))))
    by (rewrite E; left; reflexivity).
  apply filter_In in Hin as [Hin _].
  eapply in_combine_r; exact Hin.
Qed.

(** The labels given to the samples are cells of the group table. *)
Lemma assigned_labels_from_table (g : GroupTable) (both : list string)
      (labels : list (option string)) (s name : string) :
  mapM (group_of g) both = Ok labels ->
  match filter (fun p => String.eqb (fst p) s) (combine both labels) with
  | (_, l) :: _ => l
  | [] => None
  end = Some name ->
  In (Some name) (g_Group g).
Proof.
  intros HM H.
  destruct (filter _ (combine both labels)) as [| [k l] r] eqn:E; [discriminate |].
  subst l.
  assert (Hin : In (k, Some name) (filter (fun p => String.eqb (fst p) s)
                                          (combine both labels)))
    by (rewrite E; left; reflexivity).
  apply filter_In in Hin as [Hin _].
  apply mapM_Ok_Forall2 in HM.
  clear E; revert Hin; induction HM as [| k0 l0 both labels H0 _ IH]; simpl;
    [contradiction |].
  intros [Heq | Hin]; [| apply IH; exact Hin].
  injection Heq as -> ->; eapply group_of_In; exact H0.
Qed.

(** X13. On a dataset that has no targets yet, the target assignment ends in
    an exception whenever the group table lacks one of the two groups case
    and control: nothing is assigned when only one of them is there. *)
Theorem add_target_lables_needs_both_groups :
  forall (self : Dataset) (groups : GroupTable),
    ds_groups self = Some groups ->
    ds_y self = None ->
    ~ In (Some "case") (g_Group groups) \/ ~ In (Some "control") (g_Group groups) ->
    exists e : exn, add_target_lables self = Raise e.
Proof.
  intros self groups Hg Hy Hmiss; unfold add_target_lables.
  destruct (ds_df self) as [df |]; cbn [attr bind]; [| eauto].
  rewrite Hg; cbn [attr bind].
  destruct (mapM (group_of groups) _) as [ls |] eqn:HM; cbn [bind]; [| eauto].
  match goal with
  | |- context [unique (map ?f (df_index df))] =>
      set (orig := map f (df_index df))
  end.
  assert (N : forall name, label_in name (unique orig) = true ->
                           In (Some name) (g_Group groups)).
  { intros name H; unfold label_in in H.
    apply existsb_exists in H as (x & Hx & E).
    apply label_eqb_eq in E; subst x.
    apply unique_incl in Hx; unfold orig in Hx.
    apply in_map_iff in Hx as (s & Hs & _).
    eapply assigned_labels_from_table; eassumption. }
  destruct (label_in "case" (unique orig)) eqn:Ec;
    [destruct (label_in "control" (unique orig)) eqn:Eo |]; simpl.
  - exfalso; destruct Hmiss as [H | H]; apply H; apply N; assumption.
  - rewrite Hy; simpl; eauto.
  - rewrite Hy; simpl; eauto.
Qed.

Lemma add_target_lables_needs_both_groups_witness :
  exists e : exn,
    add_target_lables
      (mkDataset None
                 (Some (mkGroups ["s1"; "s2"; "s3"]
                                 [Some "case"; Some "case"; Some "other"]))
                 (Some example_complete) None None)
    = Raise e.
Proof.
  apply (add_target_lables_needs_both_groups
           (mkDataset None
                      (Some (mkGroups ["s1"; "s2"; "s3"]
                                      [Some "case"; Some "case"; Some "other"]))
                      (Some example_complete) None None)
           (mkGroups ["s1"; "s2"; "s3"]
                     [Some "case"; Some "case"; Some "other"])).
  - reflexivity.
  - reflexivity.
  - right; simpl; intuition discriminate.
Defined.

(** ** Fill values of observed columns *)

Lemma dropnan_finite (l : list float) :
  forallb not_inf l = true -> forallb is_finite (dropnan l) = true.
Proof.
  unfold dropnan; induction l as [| x l IH]; simpl; [reflexivity |].
  intros H; apply andb_true_iff in H as [Hx Hl].
  destruct x; simpl in *; try discriminate; auto.
Qed.

Lemma dropnan_nonempty (l : list float) :
  forallb isnan l = false -> dropnan l <> [].
Proof.
  unfold dropnan; induction l as [| x l IH]; simpl; [discriminate |].
  destruct (isnan x); simpl; [exact IH | discriminate].
Qed.

Lemma dropnan_all_nan (l : list float) :
  forallb isnan l = true -> dropnan l = [].
Proof.
  unfold dropnan; induction l as [| x l IH]; simpl; [reflexivity |].
  destruct (isnan x); simpl; [exact IH | discriminate].
Qed.

Lemma fdiv_count_finite (q : Q) (n : nat) :
  is_finite (fdiv_count (Fin q) (S n)) = true.
Proof. reflexivity. Qed.

Lemma nanmean_observed (l : list float) :
  forallb not_inf l = true -> forallb isnan l = false ->
  is_finite (nanmean l) = true.
Proof.
  intros Hf Hn; unfold nanmean, fsum.
  destruct (fold_fadd_finite (dropnan l) 0 (dropnan_finite l Hf)) as [q ->].
  pose proof (dropnan_nonempty l Hn) as Hne.
  destruct (dropnan l); [contradiction | reflexivity].
Qed.

Lemma insert_sorted_length (x : float) (l : list float) :
  length (insert_sorted x l) = S (length l).
Proof.
  induction l as [| y l IH]; simpl; [reflexivity |].
  destruct (fleb x y); simpl; [reflexivity | rewrite IH; reflexivity].
Qed.

Lemma insert_sorted_finite (x : float) (l : list float) :
  is_finite x = true -> forallb is_finite l = true ->
  forallb is_finite (insert_sorted x l) = true.
Proof.
  intros Hx; induction l as [| y l IH]; simpl; intros Hl.
  - rewrite Hx; reflexivity.
  - apply andb_true_iff in Hl as [Hy Hl].
    destruct (fleb x y); simpl; rewrite ?Hx, ?Hy, ?Hl, ?IH; auto.
Qed.

Lemma sort_length (l : list float) : length (sort l) = length l.
Proof.
  unfold sort; induction l as [| x l IH]; simpl; [reflexivity |].
  rewrite insert_sorted_length, IH; reflexivity.
Qed.

Lemma sort_finite (l : list float) :
  forallb is_finite l = true -> forallb is_finite (sort l) = true.
Proof.
  unfold sort; induction l as [| x l IH]; simpl; [reflexivity |].
  intros H; apply andb_true_iff in H as [Hx Hl].
  apply insert_sorted_finite; auto.
Qed.

Lemma nth_finite (l : list float) (i : nat) :
  forallb is_finite l = true -> i < length l ->
  exists q, nth i l NaN = Fin q.
Proof.
  intros H Hi.
  assert (Hin : In (nth i l NaN) l) by (apply nth_In; exact Hi).
  rewrite forallb_forall in H; specialize (H _ Hin).
  destruct (nth i l NaN); try discriminate; eauto.
Qed.

Lemma nanmedian_observed (l : list float) :
  forallb not_inf l = true -> forallb isnan l = false ->
  is_finite (nanmedian l) = true.
Proof.
  intros Hf Hn; unfold nanmedian.
  pose proof (sort_finite _ (dropnan_finite l Hf)) as Hs.
  pose proof (dropnan_nonempty l Hn) as Hne.
  pose proof (sort_length (dropnan l)) as Hlen.
  set (xs := sort (dropnan l)) in *.
  destruct (length xs) as [| n] eqn:En.
  - destruct (dropnan l); [contradiction | discriminate].
  - assert (H1 : S n / 2 < length xs)
      by (rewrite En; apply Nat.div_lt; lia).
    assert (H2 : S n / 2 - 1 < length xs) by lia.
    destruct (nth_finite xs _ Hs H1) as [q1 E1].
    destruct (nth_finite xs _ Hs H2) as [q2 E2].
    rewrite E1, E2.
    destruct (Nat.even (S n)); reflexivity.
Qed.

Lemma column_not_inf (a : matrix) (j : nat) :
  forallb (forallb not_inf) a = true -> forallb not_inf (column a j) = true.
Proof.
  unfold column; induction a as [| r a IH]; simpl; [reflexivity |].
  intros H; apply andb_true_iff in H as [Hr Ha].
  rewrite IH by exact Ha; rewrite andb_true_r.
  destruct (Nat.lt_ge_cases j (length r)) as [Hj | Hj].
  - rewrite forallb_forall in Hr; apply Hr, nth_In; exact Hj.
  - rewrite nth_overflow by exact Hj; reflexivity.
Qed.

Lemma columns_of_nth (df : DataFrame) (j : nat) :
  j < length (df_columns df) ->
  nth_error (columns_of df) j = Some (column (df_values df) j).
Proof.
  intros Hj; unfold columns_of.
  rewrite nth_error_map.
  rewrite (nth_error_nth' (seq 0 (length (df_columns df))) 0)
    by (rewrite length_seq; exact Hj).
  rewrite seq_nth by exact Hj; reflexivity.
Qed.

(** The fill value of a column, by what the column holds. *)
Lemma feature_imputation_values_by_column :
  forall (df : DataFrame) (policy : string) (imp_vals : Series) (j : nat),
    forallb (forallb not_inf) (df_values df) = true ->
    feature_imputation_values df policy = Ok imp_vals ->
    j < length (df_columns df) ->
    (column_all_nan df j = false ->
     exists q, nth_error (s_values imp_vals) j = Some (Fin q)) /\
    (column_all_nan df j = true -> policy <> "zeros" ->
     nth_error (s_values imp_vals) j = Some NaN).
Proof.
  intros df policy imp_vals j Hf H Hj.
  pose proof (column_not_inf (df_values df) j Hf) as Hc.
  unfold feature_imputation_values in H.
  destruct (String.eqb policy "impute_by_mean");
    [| destruct (String.eqb policy "impute_by_median");
       [| destruct (String.eqb_spec policy "zeros"); [| discriminate]]];
    injection H as <-; simpl; unfold column_all_nan.
  - rewrite nth_error_map, columns_of_nth by exact Hj; simpl; split.
    + intros Hn; pose proof (nanmean_observed _ Hc Hn) as F.
      destruct (nanmean _); try discriminate; eauto.
    + intros Hn _; unfold nanmean.
      rewrite (dropnan_all_nan _ Hn); reflexivity.
  - rewrite nth_error_map, columns_of_nth by exact Hj; simpl; split.
    + intros Hn; pose proof (nanmedian_observed _ Hc Hn) as F.
      destruct (nanmedian _); try discriminate; eauto.
    + intros Hn _; unfold nanmedian.
      rewrite (dropnan_all_nan _ Hn); reflexivity.
  - split; [| intros _ Hz; contradiction].
    intros _; exists 0%Q.
    rewrite (nth_error_nth' _ NaN) by (rewrite repeat_length; exact Hj).
    rewrite nth_repeat_lt by exact Hj; reflexivity.
Qed.

(** ** Training on the entire dataset *)

Lemma nth_not_inf (r : row) (j : nat) :
  forallb not_inf r = true -> not_inf (nth j r NaN) = true.
Proof.
  intros H; destruct (Nat.lt_ge_cases j (length r)) as [Hj | Hj].
  - rewrite forallb_forall in H; apply H, nth_In; exact Hj.
  - rewrite nth_overflow by exact Hj; reflexivity.
Qed.

Lemma take_columns_not_inf (df : DataFrame) (js : list nat) :
  forallb (forallb not_inf) (df_values df) = true ->
  forallb (forallb not_inf) (df_values (take_columns df js)) = true.
Proof.
  intros H; unfold take_columns; simpl.
  apply forallb_forall; intros r' Hr'.
  apply in_map_iff in Hr' as (r & <- & Hr).
  apply forallb_forall; intros x Hx.
  unfold pick in Hx; apply in_map_iff in Hx as (j & <- & _).
  apply nth_not_inf.
  rewrite forallb_forall in H; apply H; exact Hr.
Qed.

Lemma pick_nth (r : row) (js : list nat) (j : nat) :
  j < length js -> nth j (pick r js) NaN = nth (nth j js 0) r NaN.
Proof.
  intros Hj; unfold pick.
  rewrite (nth_indep _ NaN (nth 0 r NaN)) by (rewrite length_map; exact Hj).
  apply (map_nth (fun j0 => nth j0 r NaN)).
Qed.

Lemma take_columns_column (df : DataFrame) (js : list nat) (j : nat) :
  j < length js ->
  column (df_values (take_columns df js)) j = column (df_values df) (nth j js 0).
Proof.
  intros Hj; unfold take_columns, column; simpl.
  rewrite map_map; apply map_ext; intros r; apply pick_nth; exact Hj.
Qed.

Lemma dropna_all_observed (df : DataFrame) (j : nat) :
  j < length (df_columns (dropna_all df)) ->
  column_all_nan (dropna_all df) j = false.
Proof.
  unfold dropna_all at 1, take_columns; simpl; rewrite length_map; intros Hj.
  unfold column_all_nan, dropna_all.
  rewrite take_columns_column by exact Hj.
  assert (Hin : In (nth j (observed_columns df) 0) (observed_columns df))
    by (apply nth_In; exact Hj).
  unfold observed_columns in Hin at 2; apply filter_In in Hin as [_ Hin].
  apply negb_true_iff in Hin; exact Hin.
Qed.

Lemma all_finite_no_nan (l : list float) :
  (forall j, j < length l -> exists q, nth_error l j = Some (Fin q)) ->
  existsb isnan l = false.
Proof.
  intros H; destruct (existsb isnan l) eqn:E; [| reflexivity].
  apply existsb_exists in E as (x & Hx & Hnan).
  apply In_nth_error in Hx as (j & Hj).
  assert (Hlt : j < length l) by (apply nth_error_Some; congruence).
  destruct (H j Hlt) as (q & Hq).
  rewrite Hq in Hj; injection Hj as <-; discriminate.
Qed.

Lemma loc_columns_Ok_inv (df X : DataFrame) (names : list string) :
  loc_columns df names = Ok X ->
  exists js : list nat,
    X = take_columns df js /\
    Forall (fun j => j < length (df_columns df)) js.
Proof.
  unfold loc_columns; intros H.
  apply bind_Ok_inv in H as (jss & HM & H).
  injection H as <-; exists (concat jss); split; [reflexivity |].
  apply mapM_Ok_Forall2 in HM.
  induction HM as [| nm ps names jss Hps _ IH]; simpl; [constructor |].
  apply Forall_app; split; [| exact IH].
  destruct (positions_of nm (df_columns df)) as [| p0 ps0] eqn:E; [discriminate |].
  injection Hps as <-; rewrite <- E.
  apply Forall_forall; intros j Hj; unfold positions_of in Hj.
  apply filter_In in Hj as [Hj _]; apply in_seq in Hj; lia.
Qed.

Lemma take_columns_complete (df : DataFrame) (js : list nat) :
  has_nan (df_values df) = false ->
  Forall (fun r => length r = length (df_columns df)) (df_values df) ->
  Forall (fun j => j < length (df_columns df)) js ->
  has_nan (df_values (take_columns df js)) = false.
Proof.
  intros Hn Hw Hjs; unfold has_nan, take_columns; simpl.
  destruct (existsb _ _) eqn:E; [| reflexivity]; exfalso.
  apply existsb_exists in E as (r' & Hr' & E).
  apply in_map_iff in Hr' as (r & <- & Hr).
  apply existsb_exists in E as (x & Hx & Hnan).
  unfold pick in Hx; apply in_map_iff in Hx as (j & <- & Hj).
  rewrite Forall_forall in Hw, Hjs.
  assert (Hin : In (nth j r NaN) r)
    by (apply nth_In; rewrite (Hw r Hr); apply Hjs; exact Hj).
  unfold has_nan in Hn.
  assert (Ht : existsb (existsb isnan) (df_values df) = true).
  { apply existsb_exists; exists r; split; [exact Hr |].
    apply existsb_exists; eauto. }
  congruence.
Qed.

(** The imputation step on a frame whose rows have one entry per column. *)
Lemma entire_impute_policy (df df' : DataFrame) (policy : string)
      (imp_vals : option Series) :
  Forall (fun r => length r = length (df_columns df)) (df_values df) ->
  entire_impute df (Some policy) = Ok (df', imp_vals) ->
  exists iv : Series,
    imp_vals = Some iv /\
    feature_imputation_values df policy = Ok iv /\
    df' = mkDataFrame (df_index df) (df_columns df)
                      (map (fun r => zip_fill r (s_values iv)) (df_values df)).
Proof.
  intros Hw H; unfold entire_impute in H.
  apply bind_Ok_inv in H as (iv & Hiv & H).
  pose proof (feature_imputation_values_length _ _ _ Hiv) as Hlen.
  rewrite numba_fillna_aligned in H
    by (eapply Forall_impl; [| exact Hw]; simpl; intros; congruence).
  cbn [bind] in H.
  apply bind_Ok_inv in H as (d & Hd & H).
  apply pd_DataFrame_Ok_inv in Hd; subst d.
  injection H as <- <-; eauto.
Qed.

Lemma dropna_all_width (df : DataFrame) :
  Forall (fun r => length r = length (df_columns (dropna_all df)))
         (df_values (dropna_all df)).
Proof.
  apply take_columns_width.
  unfold dropna_all, take_columns; simpl; apply length_map.
Qed.

(** X15. With an imputation policy and a matrix without infinite entry, the
    training on the entire dataset fits its scaler and its classifier on a
    matrix without missing entry: columns that are missing everywhere are
    dropped, and every other missing entry has been filled. *)
Theorem train_on_entire_dataset_imputed :
  forall (stats : Stats) (sk : Sklearn) (D : Dataset) (df : DataFrame)
         (y : Series) (penalty : option string) (internalCV_folds : nat)
         (feat_selection : option string) (pval_thresh : float)
         (policy timestamp : string) (out : entire_outputs),
    ds_df D = Some df ->
    ds_y D = Some y ->
    forallb (forallb not_inf) (df_values df) = true ->
    train_on_entire_dataset D penalty internalCV_folds feat_selection
                            pval_thresh (Some policy) timestamp = Ok out ->
    exists X : matrix,
      has_nan X = false /\
      length X = length (df_values df) /\
      train_model X y penalty 42 internalCV_folds (-1)
      = Ok (e_trained_model out, e_scaler out).
Proof.
  intros stats sk D df y penalty internalCV_folds feat_selection pval_thresh
         policy timestamp out Hdf Hy Hf H.
  unfold train_on_entire_dataset in H; rewrite Hdf, Hy in H; cbn [attr bind] in H.
  apply bind_Ok_inv in H as ([df2 ivo] & Himp & H).
  apply bind_Ok_inv in H as (feats & _ & H).
  apply bind_Ok_inv in H as (X & HX & H).
  apply bind_Ok_inv in H as ([model scaler] & HM & H).
  injection H as <-; simpl.
  apply entire_impute_policy in Himp as (iv & _ & Hiv & ->);
    [| apply dropna_all_width].
  pose proof (feature_imputation_values_length _ _ _ Hiv) as Hlen.
  assert (Hnn : existsb isnan (s_values iv) = false).
  { apply all_finite_no_nan; intros j Hj; rewrite Hlen in Hj.
    apply (feature_imputation_values_by_column (dropna_all df) policy iv j);
      [apply take_columns_not_inf; exact Hf | exact Hiv | exact Hj |].
    apply dropna_all_observed; exact Hj. }
  assert (Hal : Forall (fun r => length r = length (s_values iv))
                       (df_values (dropna_all df))).
  { eapply Forall_impl; [| apply dropna_all_width].
    cbv beta; intros r Hr; rewrite Hlen; exact Hr. }
  apply loc_columns_Ok_inv in HX as (js & -> & Hjs); simpl in Hjs.
  exists (df_values (take_columns
                       (mkDataFrame (df_index (dropna_all df))
                                    (df_columns (dropna_all df))
                                    (map (fun r => zip_fill r (s_values iv))
                                         (df_values (dropna_all df)))) js)).
  split; [| split; [| exact HM]].
  - apply take_columns_complete; cbn [df_values df_columns].
    + apply map_zip_fill_no_nan; assumption.
    + apply Forall_map.
      eapply Forall_impl; [| exact Hal]; cbv beta; intros r Hr.
      rewrite zip_fill_length by exact Hr.
      rewrite Hr; exact Hlen.
    + exact Hjs.
  - unfold take_columns, dropna_all; simpl; rewrite !length_map; reflexivity.
Qed.

Lemma train_on_entire_dataset_imputed_witness :
  exists out : @entire_outputs recording_sklearn,
    @train_on_entire_dataset (fixed_stats []) recording_sklearn example_gaps
                             (Some "l1") 5 None (Fin (1 # 100))
                             (Some "impute_by_mean") "11/04/2023, 10:00:00"
    = Ok out /\
    e_features_used out = ["cg1"; "cg3"] /\
    snd (fst (e_trained_model out))
    = [[Fin (1 # 10); Fin (3 # 10)]; [Fin (2 # 10); Fin (3 # 5)];
       [Fin (4 # 10); Fin (9 # 10)]] /\
    exists X : matrix,
      has_nan X = false /\
      length X = 3 /\
      @train_model recording_sklearn X example_y3 (Some "l1") 42 5 (-1)
      = Ok (e_trained_model out, e_scaler out).
Proof.
  eexists; split; [reflexivity |].
  split; [reflexivity |].
  split; [reflexivity |].
  apply (train_on_entire_dataset_imputed
           (fixed_stats []) recording_sklearn example_gaps
           (mkDataFrame ["s1"; "s2"; "s3"] ["cg1"; "cg2"; "cg3"]
                        [[Fin (1 # 10); NaN; Fin (3 # 10)];
                         [Fin (2 # 10); NaN; NaN];
                         [Fin (4 # 10); NaN; Fin (9 # 10)]])
           example_y3 (Some "l1") 5 None (Fin (1 # 100)) "impute_by_mean"
           "11/04/2023, 10:00:00");
    reflexivity.
Defined.

Lemma feature_imputation_values_index (df : DataFrame) (policy : string)
      (imp_vals : Series) :
  feature_imputation_values df policy = Ok imp_vals ->
  s_index imp_vals = df_columns df.
Proof.
  unfold feature_imputation_values; intros H.
  destruct (String.eqb policy "impute_by_mean"); [injection H as <-; reflexivity |].
  destruct (String.eqb policy "impute_by_median"); [injection H as <-; reflexivity |].
  destruct (String.eqb policy "zeros"); [| discriminate].
  injection H as <-; reflexivity.
Qed.

Lemma entire_impute_columns (df df' : DataFrame) (nan_policy : option string)
      (imp_vals : option Series) :
  entire_impute df nan_policy = Ok (df', imp_vals) ->
  df_columns df' = df_columns df /\
  match nan_policy, imp_vals with
  | Some _, Some iv => s_index iv = df_columns df /\
                       length (s_values iv) = length (df_columns df)
  | None, None => True
  | _, _ => False
  end.
Proof.
  unfold entire_impute; destruct nan_policy as [policy |]; intros H.
  - apply bind_Ok_inv in H as (iv & Hiv & H).
    apply bind_Ok_inv in H as (a & _ & H).
    apply bind_Ok_inv in H as (d & Hd & H).
    apply pd_DataFrame_Ok_inv in Hd; subst d.
    injection H as <- <-; simpl; split; [reflexivity |].
    split; [eapply feature_imputation_values_index; exact Hiv
           | eapply feature_imputation_values_length; exact Hiv].
  - injection H as <- <-; auto.
Qed.

(** X16. The features a training on the entire dataset reports are features
    of the matrix that are observed for at least one sample; the imputation
    values it reports, when a policy is given, are one per such feature of
    the matrix, those left out by the selection included. *)
Theorem train_on_entire_dataset_features :
  forall (stats : Stats) (sk : Sklearn) (D : Dataset) (df : DataFrame)
         (penalty : option string) (internalCV_folds : nat)
         (feat_selection : option string) (pval_thresh : float)
         (nan_policy : option string) (timestamp : string)
         (out : entire_outputs),
    ds_df D = Some df ->
    train_on_entire_dataset D penalty internalCV_folds feat_selection
                            pval_thresh nan_policy timestamp = Ok out ->
    (forall name, In name (e_features_used out) ->
                  exists j, j < length (df_columns df) /\
                            nth j (df_columns df) "" = name /\
                            column_all_nan df j = false) /\
    match nan_policy, e_imputation_vals out with
    | Some _, Some iv => s_index iv = df_columns (dropna_all df) /\
                         length (s_values iv) = length (observed_columns df)
    | None, None => True
    | _, _ => False
    end.
Proof.
  intros stats sk D df penalty internalCV_folds feat_selection pval_thresh
         nan_policy timestamp out Hdf H.
  unfold train_on_entire_dataset in H; rewrite Hdf in H; cbn [attr bind] in H.
  apply bind_Ok_inv in H as (y & _ & H).
  apply bind_Ok_inv in H as ([df2 ivo] & Himp & H).
  apply bind_Ok_inv in H as (feats & Hsel & H).
  apply bind_Ok_inv in H as (X & _ & H).
  apply bind_Ok_inv in H as ([model scaler] & _ & H).
  injection H as <-; simpl.
  apply entire_impute_columns in Himp as [Hcols Hiv].
  split.
  - intros name Hin.
    assert (Hc : In name (df_columns (dropna_all df))).
    { rewrite <- Hcols.
      destruct feat_selection as [by_ |].
      - apply select_features_from_columns in Hsel as (sel & [-> | ->]);
          [eapply compress_incl; exact Hin | exact Hin].
      - injection Hsel as <-; exact Hin. }
    unfold dropna_all, take_columns in Hc; simpl in Hc.
    apply in_map_iff in Hc as (j & Hj & Hobs).
    unfold observed_columns in Hobs; apply filter_In in Hobs as [Hr Hobs].
    apply in_seq in Hr; apply negb_true_iff in Hobs.
    exists j; split; [lia | split; assumption].
  - destruct nan_policy, ivo; try exact Hiv.
    destruct Hiv as [Hi Hl]; split; [exact Hi |].
    rewrite Hl; unfold dropna_all, take_columns; simpl; apply length_map.
Qed.

Lemma train_on_entire_dataset_features_witness :
  exists out : @entire_outputs recording_sklearn,
    @train_on_entire_dataset (fixed_stats []) recording_sklearn example_gaps
                             (Some "l1") 5 None (Fin (1 # 100))
                             (Some "impute_by_mean") "11/04/2023, 10:00:00"
    = Ok out /\
    e_imputation_vals out
    = Some (mkSeries ["cg1"; "cg3"] [Fin (7 # 30); Fin (3 # 5)]) /\
    (forall name, In name (e_features_used out) ->
                  exists j, j < 3 /\
                            nth j ["cg1"; "cg2"; "cg3"] "" = name /\
                            column_all_nan
                              (mkDataFrame ["s1"; "s2"; "s3"]
                                           ["cg1"; "cg2"; "cg3"]
                                           [[Fin (1 # 10); NaN; Fin (3 # 10)];
                                            [Fin (2 # 10); NaN; NaN];
                                            [Fin (4 # 10); NaN; Fin (9 # 10)]])
                              j = false) /\
    match Some "impute_by_mean", e_imputation_vals out with
    | Some _, Some iv =>
        s_index iv
        = df_columns (dropna_all
                        (mkDataFrame ["s1"; "s2"; "s3"] ["cg1"; "cg2"; "cg3"]
                                     [[Fin (1 # 10); NaN; Fin (3 # 10)];
                                      [Fin (2 # 10); NaN; NaN];
                                      [Fin (4 # 10); NaN; Fin (9 # 10)]])) /\
        length (s_values iv)
        = length (observed_columns
                    (mkDataFrame ["s1"; "s2"; "s3"] ["cg1"; "cg2"; "cg3"]
                                 [[Fin (1 # 10); NaN; Fin (3 # 10)];
                                  [Fin (2 # 10); NaN; NaN];
                                  [Fin (4 # 10); NaN; Fin (9 # 10)]]))
    | None, None => True
    | _, _ => False
    end.
Proof.
  eexists; split; [reflexivity |].
  split; [reflexivity |].
  apply (train_on_entire_dataset_features
           (fixed_stats []) recording_sklearn example_gaps
           (mkDataFrame ["s1"; "s2"; "s3"] ["cg1"; "cg2"; "cg3"]
                        [[Fin (1 # 10); NaN; Fin (3 # 10)];
                         [Fin (2 # 10); NaN; NaN];
                         [Fin (4 # 10); NaN; Fin (9 # 10)]])
           (Some "l1") 5 None (Fin (1 # 100)) (Some "impute_by_mean")
           "11/04/2023, 10:00:00");
    reflexivity.
Defined.

(** ** What a fold records *)

Lemma numba_fillna_length (a b : matrix) (values : row) :
  numba_fillna a values = Ok b -> length b = length a.
Proof.
  unfold numba_fillna, np_where_isnan.
  destruct (isnan (array_sum a)); intros H.
  - eapply mapM_Ok_length; exact H.
  - injection H as <-; reflexivity.
Qed.

Lemma loc_columns_rows (df X : DataFrame) (names : list string) :
  loc_columns df names = Ok X ->
  length (df_values X) = length (df_values df).
Proof.
  intros H; apply loc_columns_Ok_inv in H as (js & -> & _).
  unfold take_columns; simpl; apply length_map.
Qed.

Lemma fold_impute_test_rows (nan_policy : option string)
      (df_train df_test tr te : DataFrame) (imp_vals : option Series) :
  fold_impute nan_policy df_train df_test = Ok (tr, te, imp_vals) ->
  length (df_values te) = length (df_values df_test).
Proof.
  unfold fold_impute; destruct nan_policy as [policy |]; intros H;
    [| injection H as _ <- _; reflexivity].
  apply bind_Ok_inv in H as (iv & _ & H).
  apply bind_Ok_inv in H as (a & _ & H).
  apply bind_Ok_inv in H as (d & _ & H).
  apply bind_Ok_inv in H as (b & Hb & H).
  apply bind_Ok_inv in H as (d' & Hd' & H).
  apply pd_DataFrame_Ok_inv in Hd'; subst d'.
  injection H as _ <- _; simpl.
  eapply numba_fillna_length; exact Hb.
Qed.

Lemma iloc_rows (df df' : DataFrame) (idx : list nat) :
  iloc df idx = Ok df' -> length (df_values df') = length idx.
Proof.
  unfold iloc, take; intros H.
  apply bind_Ok_inv in H as (ix & _ & H).
  apply bind_Ok_inv in H as (vs & Hvs & H).
  injection H as <-; simpl; eapply mapM_Ok_length; exact Hvs.
Qed.

(** X17. What a fold that succeeds records: features that are features of
    the matrix without missing value among the train rows; the targets at
    the test positions, whatever they are; and a test matrix with one row
    per test position. *)
Theorem cv_fold_records :
  forall (stats : Stats) (sk : Sklearn) (df df_train : DataFrame) (y : Series)
         (penalty : option string) (internalCV_folds : nat)
         (feat_selection : option string) (pval_thresh : float)
         (nan_policy : option string) (train_index test_index : list nat)
         (f : fold_result),
    iloc df train_index = Ok df_train ->
    cv_fold df y penalty internalCV_folds feat_selection pval_thresh nan_policy
            (train_index, test_index) = Ok f ->
    (forall name, In name (f_feats f) ->
                  exists j, j < length (df_columns df) /\
                            nth j (df_columns df) "" = name /\
                            column_has_nan df_train j = false) /\
    series_iloc y test_index = Ok (f_y_test f) /\
    length (f_X_test f) = length test_index.
Proof.
  intros stats sk df df_train y penalty internalCV_folds feat_selection
         pval_thresh nan_policy train_index test_index f Htr H.
  pose proof (cv_fold_train_side _ _ _ _ _ _ _ _ _ _ _ _ H)
    as (tr & yt & X & Ht & _ & Hf & _ & _).
  assert (tr = df_train) by congruence; subst tr.
  split; [| split].
  - intros name Hin.
    assert (Hc : In name (df_columns (dropna_any df_train))).
    { destruct feat_selection as [by_ |].
      - apply select_features_from_columns in Hf as (sel & [E | E]);
          rewrite E in Hin; [eapply compress_incl; exact Hin | exact Hin].
      - rewrite Hf in Hin; exact Hin. }
    unfold dropna_any, take_columns in Hc; simpl in Hc.
    apply in_map_iff in Hc as (j & Hj & Hcomp).
    apply complete_columns_iff in Hcomp as [Hlt Hcomp].
    rewrite (iloc_columns _ _ _ Htr) in Hlt, Hj.
    exists j; auto.
  - unfold cv_fold in H.
    apply bind_Ok_inv in H as (a & _ & H).
    apply bind_Ok_inv in H as (b & _ & H).
    apply bind_Ok_inv in H as (c & _ & H).
    apply bind_Ok_inv in H as (y_test & Hy & H).
    apply bind_Ok_inv in H as ([tr0 te0] & _ & H).
    apply bind_Ok_inv in H as ([[tr te] iv] & _ & H).
    apply bind_Ok_inv in H as (feats & _ & H).
    apply bind_Ok_inv in H as (X_train & _ & H).
    apply bind_Ok_inv in H as (X_test & _ & H).
    apply bind_Ok_inv in H as ([[[model scaler] y_pred] y_prob] & _ & H).
    injection H as <-; exact Hy.
  - unfold cv_fold in H.
    apply bind_Ok_inv in H as (a & _ & H).
    apply bind_Ok_inv in H as (df_test & Hte & H).
    apply bind_Ok_inv in H as (c & _ & H).
    apply bind_Ok_inv in H as (y_test & _ & H).
    apply bind_Ok_inv in H as ([tr0 te0] & Hdrop & H).
    apply bind_Ok_inv in H as ([[tr te] iv] & Himp & H).
    apply bind_Ok_inv in H as (feats & _ & H).
    apply bind_Ok_inv in H as (X_train & _ & H).
    apply bind_Ok_inv in H as (X_test & HX & H).
    apply bind_Ok_inv in H as ([[[model scaler] y_pred] y_prob] & _ & H).
    injection H as <-; simpl.
    rewrite (loc_columns_rows _ _ _ HX).
    rewrite (fold_impute_test_rows _ _ _ _ _ _ Himp).
    unfold fold_dropna in Hdrop.
    apply bind_Ok_inv in Hdrop as (te1 & Hte1 & Hdrop).
    injection Hdrop as _ <-.
    rewrite (loc_columns_rows _ _ _ Hte1).
    eapply iloc_rows; exact Hte.
Qed.

Lemma cv_fold_records_witness :
  exists f : @fold_result recording_sklearn,
    @cv_fold (fixed_stats []) recording_sklearn example_df example_y3
             (Some "l2") 5 None (Fin (1 # 20)) (Some "zeros") ([0; 2], [1])
    = Ok f /\
    f_feats f = ["cg1"; "cg3"] /\
    (forall name, In name (f_feats f) ->
                  exists j, j < length (df_columns example_df) /\
                            nth j (df_columns example_df) "" = name /\
                            column_has_nan example_train j = false) /\
    series_iloc example_y3 [1] = Ok (f_y_test f) /\
    length (f_X_test f) = length [1].
Proof.
  eexists; split; [reflexivity |].
  split; [reflexivity |].
  apply (cv_fold_records
           (fixed_stats []) recording_sklearn example_df example_train
           example_y3 (Some "l2") 5 None (Fin (1 # 20)) (Some "zeros")
           [0; 2] [1]);
    reflexivity.
Defined.

(** ** One prediction per test sample *)

(** The test side of a fold that succeeds. *)
Lemma cv_fold_test_side (stats : Stats) (sk : Sklearn) (df : DataFrame)
      (y : Series) (penalty : option string) (internalCV_folds : nat)
      (feat_selection : option string) (pval_thresh : float)
      (nan_policy : option string) (train_index test_index : list nat)
      (f : fold_result) :
  cv_fold df y penalty internalCV_folds feat_selection pval_thresh nan_policy
          (train_index, test_index) = Ok f ->
  series_iloc y test_index = Ok (f_y_test f) /\
  length (f_X_test f) = length test_index /\
  exists (X_train : matrix) (y_train : Series),
    train_test X_train (f_X_test f) y_train penalty 42 internalCV_folds (-1)
    = Ok (f_model f, f_scaler f, f_y_pred f, f_pred_prob f).
Proof.
  unfold cv_fold; intros H.
  apply bind_Ok_inv in H as (a & _ & H).
  apply bind_Ok_inv in H as (df_test & Hte & H).
  apply bind_Ok_inv in H as (y_train & _ & H).
  apply bind_Ok_inv in H as (y_test & Hy & H).
  apply bind_Ok_inv in H as ([tr0 te0] & Hdrop & H).
  apply bind_Ok_inv in H as ([[tr te] iv] & Himp & H).
  apply bind_Ok_inv in H as (feats & _ & H).
  apply bind_Ok_inv in H as (X_train & _ & H).
  apply bind_Ok_inv in H as (X_test & HX & H).
  apply bind_Ok_inv in H as ([[[model scaler] y_pred] y_prob] & Htt & H).
  injection H as <-; simpl.
  split; [exact Hy |]; split; [| eauto].
  rewrite (loc_columns_rows _ _ _ HX).
  rewrite (fold_impute_test_rows _ _ _ _ _ _ Himp).
  unfold fold_dropna in Hdrop.
  apply bind_Ok_inv in Hdrop as (te1 & Hte1 & Hdrop).
  injection Hdrop as _ <-.
  rewrite (loc_columns_rows _ _ _ Hte1).
  eapply iloc_rows; exact Hte.
Qed.

Lemma series_iloc_length (y y' : Series) (idx : list nat) :
  series_iloc y idx = Ok y' -> length (s_values y') = length idx.
Proof.
  unfold series_iloc, take; intros H.
  apply bind_Ok_inv in H as (ix & _ & H).
  apply bind_Ok_inv in H as (vs & Hvs & H).
  injection H as <-; simpl; eapply mapM_Ok_length; exact Hvs.
Qed.

Lemma cv_fold_lengths (stats : Stats) (sk : Sklearn) (df : DataFrame)
      (y : Series) (penalty : option string) (internalCV_folds : nat)
      (feat_selection : option string) (pval_thresh : float)
      (nan_policy : option string) (s : split) (f : fold_result) :
  one_per_row sk ->
  cv_fold df y penalty internalCV_folds feat_selection pval_thresh nan_policy s
  = Ok f ->
  length (f_y_pred f) = length (snd s) /\
  length (f_pred_prob f) = length (snd s) /\
  length (s_values (f_y_test f)) = length (snd s).
Proof.
  intros (Ltr & Lpred & Lproba) H; destruct s as [train_index test_index].
  apply cv_fold_test_side in H as (Hy & Hrows & X_train & y_train & Htt).
  simpl; split; [| split; [| eapply series_iloc_length; exact Hy]].
  - unfold train_test in Htt.
    apply bind_Ok_inv in Htt as ([Xs sc] & _ & Htt).
    apply bind_Ok_inv in Htt as (Xt & Hxt & Htt).
    apply bind_Ok_inv in Htt as (m & _ & Htt).
    apply bind_Ok_inv in Htt as (fitted & _ & Htt).
    apply bind_Ok_inv in Htt as (yp & Hp & Htt).
    apply bind_Ok_inv in Htt as (pr & _ & Htt).
    apply bind_Ok_inv in Htt as (col & _ & Htt).
    injection Htt as _ _ <- _.
    rewrite (Lpred _ _ _ Hp), (Ltr _ _ _ Hxt); exact Hrows.
  - unfold train_test in Htt.
    apply bind_Ok_inv in Htt as ([Xs sc] & _ & Htt).
    apply bind_Ok_inv in Htt as (Xt & Hxt & Htt).
    apply bind_Ok_inv in Htt as (m & _ & Htt).
    apply bind_Ok_inv in Htt as (fitted & _ & Htt).
    apply bind_Ok_inv in Htt as (yp & _ & Htt).
    apply bind_Ok_inv in Htt as (pr & Hpr & Htt).
    apply bind_Ok_inv in Htt as (col & Hcol & Htt).
    injection Htt as _ _ _ <-.
    unfold column_at in Hcol; apply mapM_Ok_length in Hcol.
    transitivity (length pr); [exact Hcol |].
    transitivity (length Xt); [exact (Lproba _ _ _ Hpr) |].
    transitivity (length (f_X_test f)); [exact (Ltr _ _ _ Hxt) | exact Hrows].
Qed.

Lemma cv_loop_Ok_inv (sk : Sklearn) (body : split -> result fold_result)
      (splits : list split) (acc acc' : cv_lists) :
  cv_loop body acc splits = Ok acc' ->
  exists folds : list fold_result,
    Forall2 (fun s f => body s = Ok f) splits folds /\
    acc' = fold_left append_fold folds acc.
Proof.
  revert acc; induction splits as [| s splits IH]; simpl; intros acc H.
  - injection H as <-; exists []; split; [constructor | reflexivity].
  - apply bind_Ok_inv in H as (f & Hf & H).
    apply IH in H as (folds & HF & ->).
    exists (f :: folds); split; [constructor; assumption | reflexivity].
Qed.

Lemma cv_run_Ok_inv (stats : Stats) (sk : Sklearn) (df : DataFrame) (y : Series)
      (splits : list split) (CV : CV_arg) (penalty : option string)
      (internalCV_folds : nat) (feat_selection : option string)
      (pval_thresh : float) (nan_policy : option string) (timestamp : string)
      (out : outputs) :
  cv_run df y splits CV penalty internalCV_folds feat_selection pval_thresh
         nan_policy timestamp = Ok out ->
  exists folds : list fold_result,
    Forall2 (fun s f => cv_fold df y penalty internalCV_folds feat_selection
                                pval_thresh nan_policy s = Ok f)
            splits folds /\
    o_y_pred out = concat (map f_y_pred folds) /\
    o_y_pred_prob out = map f_pred_prob folds /\
    o_y_test out = map f_y_test folds.
Proof.
  unfold cv_run; intros H.
  apply bind_Ok_inv in H as (acc & Hloop & H).
  apply cv_loop_Ok_inv in Hloop as (folds & HF & ->).
  rewrite fold_left_append_fold in H; simpl in H.
  injection H as <-; simpl; eauto.
Qed.

(** X18. With a scaler and a classifier that answer row by row, a run that
    succeeds has one predicted class per test position of its splits, and,
    fold by fold, as many probabilities and as many recorded targets as the
    fold has test positions: the flat predictions, the probabilities once
    flattened and the targets once flattened line up. *)
Theorem cv_run_one_prediction_per_test_sample :
  forall (stats : Stats) (sk : Sklearn) (df : DataFrame) (y : Series)
         (splits : list split) (CV : CV_arg) (penalty : option string)
         (internalCV_folds : nat) (feat_selection : option string)
         (pval_thresh : float) (nan_policy : option string) (timestamp : string)
         (out : outputs),
    one_per_row sk ->
    cv_run df y splits CV penalty internalCV_folds feat_selection pval_thresh
           nan_policy timestamp = Ok out ->
    length (o_y_pred out) = length (concat (map snd splits)) /\
    Forall2 (fun s probs => length probs = length (snd s))
            splits (o_y_pred_prob out) /\
    Forall2 (fun s y_test => length (s_values y_test) = length (snd s))
            splits (o_y_test out).
Proof.
  intros stats sk df y splits CV penalty internalCV_folds feat_selection
         pval_thresh nan_policy timestamp out Hsk H.
  apply cv_run_Ok_inv in H as (folds & HF & -> & -> & ->).
  induction HF as [| s f splits folds Hf _ IH]; simpl.
  - repeat split; constructor.
  - destruct (cv_fold_lengths _ _ _ _ _ _ _ _ _ _ _ Hsk Hf) as (L1 & L2 & L3).
    destruct IH as (I1 & I2 & I3).
    rewrite !length_app, L1, I1.
    repeat split; try constructor; assumption.
Qed.

Lemma cv_run_one_prediction_per_test_sample_witness :
  exists out : @outputs recording_sklearn,
    @cv_run (fixed_stats []) recording_sklearn example_complete example_y
            [([2; 3], [0; 1]); ([0; 1], [2; 3])] (n_splits 2) (Some "l2") 5
            None (Fin (1 # 100)) None "11/04/2023, 10:00:00" = Ok out /\
    length (o_y_pred out)
    = length (concat (map snd [([2; 3], [0; 1]); ([0; 1], [2; 3])])) /\
    Forall2 (fun s probs => length probs = length (snd s))
            [([2; 3], [0; 1]); ([0; 1], [2; 3])] (o_y_pred_prob out) /\
    Forall2 (fun s y_test => length (s_values y_test) = length (snd s))
            [([2; 3], [0; 1]); ([0; 1], [2; 3])] (o_y_test out).
Proof.
  eexists; split; [reflexivity |].
  apply (cv_run_one_prediction_per_test_sample
           (fixed_stats []) recording_sklearn example_complete example_y
           [([2; 3], [0; 1]); ([0; 1], [2; 3])] (n_splits 2) (Some "l2") 5
           None (Fin (1 # 100)) None "11/04/2023, 10:00:00").
  - repeat split; simpl; intros; match goal with
      | H : Ok _ = Ok _ |- _ => injection H as <-
      end; rewrite ?length_map; reflexivity.
  - reflexivity.
Defined.

(** ** The order of the recorded targets *)

Lemma concat_consecutive (sizes : list nat) (start : nat) :
  concat (consecutive start sizes) = seq start (list_sum sizes).
Proof.
  revert start; induction sizes as [| s sizes IH]; intros start; simpl.
  - reflexivity.
  - rewrite IH, seq_app; reflexivity.
Qed.

Lemma consecutive_length (sizes : list nat) (start : nat) :
  length (consecutive start sizes) = length sizes.
Proof.
  revert start; induction sizes as [| s sizes IH]; intros start; simpl;
    [reflexivity | rewrite IH; reflexivity].
Qed.

Lemma sum_fold_sizes (c r k : nat) :
  list_sum (map (fun i => c + (if (i <? r)%nat then 1 else 0)) (seq 0 k))
  = c * k + Nat.min r k.
Proof.
  induction k as [| k IH]; [simpl; lia |].
  rewrite seq_S, map_app, list_sum_app, IH; simpl.
  destruct (Nat.ltb_spec k r); lia.
Qed.

Lemma KFold_tests_cover (k n : nat) (splits : list split) :
  0 < k ->
  KFold_split k n = Ok splits ->
  concat (map snd splits) = seq 0 n /\ length splits = k.
Proof.
  intros Hk; unfold KFold_split.
  destruct (n <? k)%nat; [discriminate |].
  intros H; injection H as <-.
  rewrite map_map; simpl; rewrite map_id, length_map.
  rewrite concat_consecutive, consecutive_length, length_map, length_seq.
  split; [| reflexivity].
  rewrite sum_fold_sizes; f_equal.
  pose proof (Nat.mod_upper_bound n k ltac:(lia)).
  pose proof (Nat.div_mod_eq n k).
  rewrite Nat.min_l by lia; lia.
Qed.

Lemma LeaveOneOut_tests_cover (n : nat) (splits : list split) :
  LeaveOneOut_split n = Ok splits ->
  concat (map snd splits) = seq 0 n /\ length splits = n.
Proof.
  unfold LeaveOneOut_split; destruct (n <=? 1)%nat; [discriminate |].
  intros H; injection H as <-.
  rewrite map_map; simpl; rewrite length_map, length_seq.
  split; [apply concat_singletons | reflexivity].
Qed.

Lemma take_Ok_map {A : Type} (d : A) (l out : list A) (idx : list nat) :
  take l idx = Ok out -> out = map (fun i => nth i l d) idx.
Proof.
  unfold take; revert out; induction idx as [| i idx IH]; simpl; intros out H.
  - injection H as <-; reflexivity.
  - destruct (nth_error l i) as [x |] eqn:E; simpl in H; [| discriminate].
    destruct (mapM _ idx) as [xs |]; simpl in H; [| discriminate].
    injection H as <-.
    rewrite (IH xs eq_refl), (nth_error_nth _ _ d E); reflexivity.
Qed.

Lemma map_nth_all {A : Type} (d : A) (l : list A) :
  map (fun i => nth i l d) (seq 0 (length l)) = l.
Proof.
  induction l as [| a l IH]; simpl; [reflexivity |].
  rewrite <- seq_shift, map_map; simpl; rewrite IH; reflexivity.
Qed.

Lemma recorded_targets_by_position (sk : Sklearn) (y : Series)
      (splits : list split) (folds : list fold_result) :
  Forall2 (fun s f => series_iloc y (snd s) = Ok (f_y_test f)) splits folds ->
  concat (map s_values (map f_y_test folds))
  = map (fun i => nth i (s_values y) NaN) (concat (map snd splits)).
Proof.
  induction 1 as [| s f splits folds Hs _ IH]; simpl; [reflexivity |].
  rewrite map_app, IH; f_equal.
  unfold series_iloc in Hs.
  apply bind_Ok_inv in Hs as (ix & _ & Hs).
  apply bind_Ok_inv in Hs as (vs & Hvs & Hs).
  injection Hs as Hs; rewrite <- Hs; simpl.
  apply take_Ok_map; exact Hvs.
Qed.

(** X19. With the splitters the code builds (k consecutive folds without
    shuffling, or leave-one-out), on a dataset with one target per sample, a
    run that succeeds records the targets of the test sets fold after fold
    in the order of the dataset: put end to end they are the targets of the
    dataset.  There are as many folds as asked for, and one per sample
    under leave-one-out. *)
Theorem cv_train_test_targets_in_dataset_order :
  forall (stats : Stats) (sk : Sklearn) (D : Dataset) (df : DataFrame)
         (y : Series) (CV : CV_arg) (penalty : option string)
         (internalCV_folds : nat) (feat_selection : option string)
         (pval_thresh : float) (nan_policy : option string) (timestamp : string)
         (out : outputs),
    ds_df D = Some df ->
    ds_y D = Some y ->
    length (s_values y) = length (df_values df) ->
    cv_train_test D CV penalty internalCV_folds feat_selection pval_thresh
                  nan_policy timestamp = Ok out ->
    concat (map s_values (o_y_test out)) = s_values y /\
    length (o_y_test out)
    = match CV with
      | LOO => length (df_values df)
      | n_splits k => k
      end.
Proof.
  intros stats sk D df y CV penalty internalCV_folds feat_selection pval_thresh
         nan_policy timestamp out Hdf Hy Hlen H.
  unfold cv_train_test in H.
  apply bind_Ok_inv in H as (cv & Hcv & H).
  rewrite Hdf, Hy in H; cbn [attr bind] in H.
  apply bind_Ok_inv in H as (splits & Hsp & H).
  assert (C : concat (map snd splits) = seq 0 (length (df_values df)) /\
              length splits = match CV with
                              | LOO => length (df_values df)
                              | n_splits k => k
                              end).
  { destruct CV as [| k]; simpl in Hcv.
    - injection Hcv as <-; apply LeaveOneOut_tests_cover; exact Hsp.
    - destruct (Nat.leb_spec k 1); [discriminate |].
      injection Hcv as <-; apply KFold_tests_cover; [lia | exact Hsp]. }
  destruct C as [Hcover Hcount].
  apply cv_run_Ok_inv in H as (folds & HF & _ & _ & ->).
  split.
  - rewrite (recorded_targets_by_position sk y splits folds).
    + rewrite Hcover, <- Hlen; apply map_nth_all.
    + eapply Forall2_impl; [| exact HF]; simpl.
      intros [tr te] f Hf; apply cv_fold_test_side in Hf; apply Hf.
  - rewrite length_map, <- Hcount; symmetry; eapply Forall2_length; exact HF.
Qed.

Lemma cv_train_test_targets_in_dataset_order_witness :
  exists out : @outputs recording_sklearn,
    @cv_train_test (fixed_stats []) recording_sklearn
                   (mkDataset None None (Some example_complete)
                              (Some example_y) None)
                   (n_splits 3) (Some "l2") 5 None (Fin (1 # 100)) None
                   "11/04/2023, 10:00:00" = Ok out /\
    map s_values (o_y_test out) = [[Fin 0; Fin 0]; [Fin 1]; [Fin 1]] /\
    (concat (map s_values (o_y_test out)) = s_values example_y /\
     length (o_y_test out) = 3).
Proof.
  eexists; split; [reflexivity |].
  split; [reflexivity |].
  apply (cv_train_test_targets_in_dataset_order
           (fixed_stats []) recording_sklearn
           (mkDataset None None (Some example_complete) (Some example_y) None)
           example_complete example_y (n_splits 3) (Some "l2") 5 None
           (Fin (1 # 100)) None "11/04/2023, 10:00:00");
    reflexivity.
Defined.

(** ** Configuration strings in a run *)

Lemma cv_fold_unrecognized (stats : Stats) (sk : Sklearn) (df : DataFrame)
      (y : Series) (penalty : option string) (internalCV_folds : nat)
      (feat_selection : option string) (pval_thresh : float)
      (nan_policy : option string) (s : split) :
  ~ recognized_penalty penalty \/
  (exists policy, nan_policy = Some policy /\ ~ recognized_nan_policy policy) ->
  exists e : exn,
    cv_fold df y penalty internalCV_folds feat_selection pval_thresh nan_policy s
    = Raise e.
Proof.
  intros Hbad.
  destruct (cv_fold df y penalty internalCV_folds feat_selection pval_thresh
                    nan_policy s) as [f | e] eqn:H; [exfalso | eauto].
  destruct s as [train_index test_index]; unfold cv_fold in H.
  apply bind_Ok_inv in H as (a & _ & H).
  apply bind_Ok_inv in H as (b & _ & H).
  apply bind_Ok_inv in H as (c & _ & H).
  apply bind_Ok_inv in H as (d & _ & H).
  apply bind_Ok_inv in H as ([tr0 te0] & _ & H).
  apply bind_Ok_inv in H as ([[tr te] iv] & Himp & H).
  apply bind_Ok_inv in H as (feats & _ & H).
  apply bind_Ok_inv in H as (X_train & _ & H).
  apply bind_Ok_inv in H as (X_test & _ & H).
  apply bind_Ok_inv in H as ([[[model scaler] y_pred] y_prob] & Htt & _).
  destruct Hbad as [Hpen | (policy & -> & Hpol)].
  - destruct (train_test_unrecognized_penalty
                sk (df_values X_train) (df_values X_test) c penalty 42
                internalCV_folds (-1) Hpen) as [e He].
    rewrite He in Htt; discriminate Htt.
  - unfold fold_impute in Himp.
    rewrite feature_imputation_values_unrecognized in Himp by exact Hpol.
    discriminate Himp.
Qed.

(** X20. A run over at least one split with a penalty that is not
    recognised, or with an imputation policy that is not recognised, returns
    no outputs: its first fold ends in an exception, and so does the run. *)
Theorem cv_run_unrecognized_configuration :
  forall (stats : Stats) (sk : Sklearn) (df : DataFrame) (y : Series)
         (s : split) (splits : list split) (CV : CV_arg)
         (penalty : option string) (internalCV_folds : nat)
         (feat_selection : option string) (pval_thresh : float)
         (nan_policy : option string) (timestamp : string),
    ~ recognized_penalty penalty \/
    (exists policy, nan_policy = Some policy /\ ~ recognized_nan_policy policy) ->
    exists e : exn,
      cv_run df y (s :: splits) CV penalty internalCV_folds feat_selection
             pval_thresh nan_policy timestamp
      = Raise e.
Proof.
  intros stats sk df y s splits CV penalty internalCV_folds feat_selection
         pval_thresh nan_policy timestamp Hbad.
  destruct (cv_fold_unrecognized stats sk df y penalty internalCV_folds
                                 feat_selection pval_thresh nan_policy s Hbad)
    as [e He].
  exists e; unfold cv_run; simpl; rewrite He; reflexivity.
Qed.

Lemma cv_run_unrecognized_configuration_witness :
  exists e : exn,
    @cv_run (fixed_stats []) recording_sklearn example_complete example_y
            (([2; 3], [0; 1]) :: [([0; 1], [2; 3])]) (n_splits 2)
            (Some "ridge") 5 None (Fin (1 # 100)) (Some "impute_by_median")
            "11/04/2023, 10:00:00"
    = Raise e.
Proof.
  apply (cv_run_unrecognized_configuration
           (fixed_stats []) recording_sklearn example_complete example_y
           ([2; 3], [0; 1]) [([0; 1], [2; 3])] (n_splits 2) (Some "ridge") 5
           None (Fin (1 # 100)) (Some "impute_by_median")
           "11/04/2023, 10:00:00").
  left; unfold recognized_penalty; simpl; intuition discriminate.
Defined.

(** X21. A fold asked for a feature-selection method that is not recognised
    does what a fold without feature selection does: same result, same
    exception. *)
Theorem cv_fold_unrecognized_selection_is_none :
  forall (stats : Stats) (sk : Sklearn) (df : DataFrame) (y : Series)
         (penalty : option string) (internalCV_folds : nat) (by_ : string)
         (pval_thresh : float) (nan_policy : option string) (s : split),
    ~ recognized_feat_selection by_ ->
    cv_fold df y penalty internalCV_folds (Some by_) pval_thresh nan_policy s
    = cv_fold df y penalty internalCV_folds None pval_thresh nan_policy s.
Proof.
  intros stats sk df y penalty internalCV_folds by_ pval_thresh nan_policy
         [train_index test_index] Hby.
  unfold cv_fold.
  destruct (iloc df train_index) as [df_train |]; cbn [bind]; [| reflexivity].
  destruct (iloc df test_index) as [df_test |]; cbn [bind]; [| reflexivity].
  destruct (series_iloc y train_index) as [y_train |]; cbn [bind]; [| reflexivity].
  destruct (series_iloc y test_index) as [y_test |]; cbn [bind]; [| reflexivity].
  destruct (fold_dropna df_train df_test) as [[tr0 te0] |]; cbn [bind];
    [| reflexivity].
  destruct (fold_impute nan_policy tr0 te0) as [[[tr te] iv] |]; cbn [bind];
    [| reflexivity].
  rewrite select_features_unrecognized by exact Hby; reflexivity.
Qed.

Lemma cv_fold_unrecognized_selection_is_none_witness :
  @cv_fold (fixed_stats [Fin (1 # 1000); Fin (1 # 2); Fin (1 # 2)])
           recording_sklearn example_complete example_y (Some "l2") 5
           (Some "anova") (Fin (1 # 20)) None ([0; 1; 2], [3])
  = @cv_fold (fixed_stats [Fin (1 # 1000); Fin (1 # 2); Fin (1 # 2)])
             recording_sklearn example_complete example_y (Some "l2") 5
             None (Fin (1 # 20)) None ([0; 1; 2], [3]).
Proof.
  apply (cv_fold_unrecognized_selection_is_none
           (fixed_stats [Fin (1 # 1000); Fin (1 # 2); Fin (1 # 2)])
           recording_sklearn example_complete example_y (Some "l2") 5 "anova"
           (Fin (1 # 20)) None ([0; 1; 2], [3])).
  unfold recognized_feat_selection; simpl; intuition discriminate.
Defined.

(** * The stages of a fold *)







(** ** Column removal in a fold *)




(** ** Fill values in a fold *)






(** ** Missing targets in the train partition *)

(** C8. The labels of all the train positions reach the classifier's fit
    unfiltered: with a classifier that refuses a missing label, as
    scikit-learn's does, [train_test] raises on every label vector with a
    missing entry, and a fold whose train positions include a sample with a
    missing target ends in an exception instead of fitting on the labelled
    samples. *)
Theorem cv_fold_missing_target_in_train_raises :
  forall (stats : Stats) (sk : Sklearn) (df : DataFrame) (y y_train : Series)
         (penalty : option string) (internalCV_folds : nat)
         (feat_selection : option string) (pval_thresh : float)
         (nan_policy : option string) (train_index test_index : list nat),
    rejects_missing_labels sk ->
    series_iloc y train_index = Ok y_train ->
    existsb isnan (s_values y_train) = true ->
    (forall (X_train X_test : matrix) (seed n_jobs : Z),
        exists e : exn,
          train_test X_train X_test y_train penalty seed internalCV_folds n_jobs
          = Raise e) /\
    exists e : exn,
      cv_fold df y penalty internalCV_folds feat_selection pval_thresh
              nan_policy (train_index, test_index) = Raise e.
Proof.
  intros stats sk df y y_train penalty internalCV_folds feat_selection
         pval_thresh nan_policy train_index test_index Hsk Hy Hnan.
  split.
  - intros X_train X_test seed n_jobs.
    destruct (train_test X_train X_test y_train penalty seed internalCV_folds
                         n_jobs) as [r | e] eqn:E; [exfalso | exists e; reflexivity].
    unfold train_test in E.
    apply bind_Ok_inv in E as ([Xs sc] & _ & E).
    apply bind_Ok_inv in E as (Xt & _ & E).
    apply bind_Ok_inv in E as (m & _ & E).
    apply bind_Ok_inv in E as (fitted & Hfit & _).
    rewrite (Hsk m Xs (s_values y_train) Hnan) in Hfit; discriminate Hfit.
  - destruct (cv_fold df y penalty internalCV_folds feat_selection pval_thresh
                      nan_policy (train_index, test_index)) as [f | e] eqn:E;
      [exfalso | exists e; reflexivity].
    apply cv_fold_fit_labels in E as (y_train' & m & X & Hy' & _ & Hfit).
    assert (y_train' = y_train) by congruence; subst y_train'.
    rewrite (Hsk m X (s_values y_train) Hnan) in Hfit; discriminate Hfit.
Qed.

Lemma cv_fold_missing_target_in_train_raises_witness :
  rejects_missing_labels recording_sklearn /\
  (exists f : @fold_result recording_sklearn,
      @cv_fold (fixed_stats []) recording_sklearn example_complete example_y
               (Some "l2") 5 None (Fin (1 # 20)) None ([0; 1; 2], [3]) = Ok f) /\
  @cv_fold (fixed_stats []) recording_sklearn example_complete
           example_y_missing (Some "l2") 5 None (Fin (1 # 20)) None
           ([0; 1; 2], [3]) = Raise ValueError /\
  (forall (X_train X_test : matrix) (seed n_jobs : Z),
      exists e : exn,
        @train_test recording_sklearn X_train X_test
                    (mkSeries ["s1"; "s2"; "s3"] [Fin 0; NaN; Fin 1])
                    (Some "l2") seed 5 n_jobs = Raise e) /\
  exists e : exn,
    @cv_fold (fixed_stats []) recording_sklearn example_complete
             example_y_missing (Some "l2") 5 None (Fin (1 # 20)) None
             ([0; 1; 2], [3]) = Raise e.
Proof.
  assert (Hsk : rejects_missing_labels recording_sklearn).
  { intros m X y H; simpl; rewrite H; reflexivity. }
  split; [exact Hsk |].
  split; [eexists; reflexivity |].
  split; [reflexivity |].
  apply (cv_fold_missing_target_in_train_raises
           (fixed_stats []) recording_sklearn example_complete
           example_y_missing (mkSeries ["s1"; "s2"; "s3"] [Fin 0; NaN; Fin 1])
           (Some "l2") 5 None (Fin (1 # 20)) None [0; 1; 2] [3]).
  - exact Hsk.
  - reflexivity.
  - reflexivity.
Defined.

(** ** Fill values that do not line up with the columns *)

